(** * TradeAi backend: the orchestration core of [server.py] and the
      serverless upload handler of [api/upload-image.py]

    The development embeds the Python code shallowly:

    - a Python [str] is a Rocq [string]: the sequence of the bytes of its
      UTF-8 encoding (a literal with an emoji is the byte string of that
      literal).  Substring and prefix tests on UTF-8 text coincide with the
      tests on code points.  [lower] and [upper] map the ASCII letters and
      leave every other byte as it is; the Error Classifier is also given
      over [str.lower] itself, as a parameter ([PyUnicode]);
    - Python [bytes] is [list byte];
    - an [async] function that only awaits the external chat client is a
      computation in a state-and-exception monad over the state of the
      external service ([World]); the monad also keeps a log of the gateway
      calls that were made, which the code does not have and which is only
      there to count calls;
    - [print] has no effect that the endpoints return and is left out. *)

From Stdlib Require Import Strings.String Strings.Ascii Strings.Byte List ZArith NArith Bool Lia.
From Stdlib Require Import DecimalString.
From ExtLib Require Import Structures.Monad.
Import ListNotations.

Local Open Scope string_scope.

(* ===================================================================== *)
(** * Part I: definitions                                                  *)
(* ===================================================================== *)

(** ** The Python runtime the code relies on *)
Module Py.

(** *** [str] *)

Definition is_ascii_upper (c : ascii) : bool :=
  let n := N_of_ascii c in ((65 <=? n) && (n <=? 90))%N.

Definition is_ascii_lower (c : ascii) : bool :=
  let n := N_of_ascii c in ((97 <=? n) && (n <=? 122))%N.

Definition lower_char (c : ascii) : ascii :=
  if is_ascii_upper c then ascii_of_N (N_of_ascii c + 32) else c.

Definition upper_char (c : ascii) : ascii :=
  if is_ascii_lower c then ascii_of_N (N_of_ascii c - 32) else c.

(** [s.lower()] *)
Fixpoint lower (s : string) : string :=
  match s with
  | EmptyString => EmptyString
  | String c s' => String (lower_char c) (lower s')
  end.

(** [s.upper()] *)
Fixpoint upper (s : string) : string :=
  match s with
  | EmptyString => EmptyString
  | String c s' => String (upper_char c) (upper s')
  end.

(** [s.startswith(p)] *)
Definition startswith (s p : string) : bool := String.prefix p s.

(** [sub in s] on strings: [sub] occurs in [s] as a contiguous run. *)
Fixpoint str_in (sub s : string) : bool :=
  String.prefix sub s ||
  match s with
  | EmptyString => false
  | String _ s' => str_in sub s'
  end.

(** Truth value of an [Optional[str]]: [None] and [""] are false. *)
Definition truthy (o : option string) : bool :=
  match o with
  | None => false
  | Some EmptyString => false
  | Some (String _ _) => true
  end.

(** [len(b)] of a bytes object, as a Python int. *)
Definition len (b : list byte) : Z := Z.of_nat (List.length b).

(** *** Exceptions *)

(** The two exception classes the code distinguishes: FastAPI's
    [HTTPException] and any other [Exception], of which the code only
    ever reads [str(e)]. *)
Inductive exn : Type :=
| HTTPException (status_code : Z) (detail : string)
| Exception (msg : string).

(** [str(e)]; Starlette prints an [HTTPException] as
    ["{status_code}: {detail}"]. *)
Definition str_of_exn (e : exn) : string :=
  match e with
  | HTTPException c d => NilZero.string_of_int (Z.to_int c) ++ ": " ++ d
  | Exception m => m
  end.

(** What a call does: it returns a value or it raises. *)
Inductive outcome (A : Type) : Type :=
| Returned (a : A)
| Raised (e : exn).
Arguments Returned {A} a.
Arguments Raised {A} e.


(** *** [base64] *)

(** The alphabet of RFC 4648, section 4, which [base64.b64encode] uses. *)
Definition b64_alphabet : string :=
  "ABCDEFGHIJKLMNOPQRSTUVWXYZabcdefghijklmnopqrstuvwxyz0123456789+/".

Definition b64_pad : byte := "="%byte.

(** The character of a 6-bit group. *)
Definition b64_char (n : N) : byte :=
  match String.get (N.to_nat n) b64_alphabet with
  | Some c => byte_of_ascii c
  | None => b64_pad
  end.

Fixpoint find_char (c : ascii) (s : string) (i : N) : option N :=
  match s with
  | EmptyString => None
  | String d s' => if Ascii.eqb c d then Some i else find_char c s' (i + 1)%N
  end.

(** The 6-bit group of a character of the alphabet. *)
Definition b64_index (c : byte) : option N :=
  find_char (ascii_of_byte c) b64_alphabet 0%N.

Definition byte_of_N (n : N) : byte :=
  match Byte.of_N n with
  | Some b => b
  | None => "000"%byte
  end.

(** [base64.b64encode(data)]: three bytes give four characters; one or
    two trailing bytes give two or three characters and padding. *)
Fixpoint b64encode (data : list byte) : list byte :=
  match data with
  | [] => []
  | [a] =>
      let x := Byte.to_N a in
      [b64_char (x / 4); b64_char (x mod 4 * 16); b64_pad; b64_pad]
  | [a; b] =>
      let x := Byte.to_N a in
      let y := Byte.to_N b in
      [b64_char (x / 4); b64_char (x mod 4 * 16 + y / 16);
       b64_char (y mod 16 * 4); b64_pad]
  | a :: b :: c :: rest =>
      let x := Byte.to_N a in
      let y := Byte.to_N b in
      let z := Byte.to_N c in
      b64_char (x / 4) :: b64_char (x mod 4 * 16 + y / 16)
        :: b64_char (y mod 16 * 4 + z / 64) :: b64_char (z mod 64)
        :: b64encode rest
  end%N.

(** The decoder of RFC 4648 on whole groups of four characters; padding
    is accepted in the last group only.  [None] is a decoding error. *)
Fixpoint b64decode (text : list byte) : option (list byte) :=
  match text with
  | [] => Some []
  | c0 :: c1 :: c2 :: c3 :: rest =>
      match b64_index c0, b64_index c1 with
      | Some i0, Some i1 =>
          let b0 := byte_of_N (i0 * 4 + i1 / 16) in
          match b64_index c2 with
          | Some i2 =>
              let b1 := byte_of_N (i1 mod 16 * 16 + i2 / 4) in
              match b64_index c3 with
              | Some i3 =>
                  let b2 := byte_of_N (i2 mod 4 * 64 + i3) in
                  match b64decode rest with
                  | Some tl => Some (b0 :: b1 :: b2 :: tl)
                  | None => None
                  end
              | None =>
                  match rest with
                  | [] => if Byte.eqb c3 b64_pad then Some [b0; b1] else None
                  | _ :: _ => None
                  end
              end
          | None =>
              match rest with
              | [] =>
                  if Byte.eqb c2 b64_pad && Byte.eqb c3 b64_pad
                  then Some [b0] else None
              | _ :: _ => None
              end
          end
      | _, _ => None
      end
  | _ => None
  end%N.

(** [b.decode('utf-8')] of bytes that are valid UTF-8: the same bytes,
    read as a [str]. *)
Definition decode_utf8 (b : list byte) : string := string_of_list_byte b.

(** [s.encode('utf-8')] *)
Definition encode_utf8 (s : string) : list byte := list_byte_of_string s.

End Py.
Import Py.

(** ** [server.py] *)
Module Server.

(** *** Error Classifier *)

Definition busy_retry_message : string :=
  "🔄 The AI service is currently busy. Please try again in a few moments.".
Definition auth_support_message : string :=
  "🔐 Authentication issue with the AI service. Please contact support.".
Definition throttle_message : string :=
  "⏳ Too many requests. Please wait a moment and try again.".
Definition slow_retry_message : string :=
  "⏱️ The analysis is taking longer than expected. Please try again.".
Definition connectivity_message : string :=
  "🌐 Network connectivity issue. Please check your internet connection.".
Definition oversize_message : string :=
  "📁 The uploaded image is too large. Please use a smaller image file.".
Definition bad_format_message : string :=
  "🖼️ Invalid image format. Please upload a valid chart image (PNG, JPG, or GIF).".
Definition generic_message : string :=
  "⚠️ Something went wrong during analysis. Please try again or contact support.".

(** [get_user_friendly_error(error_str)] *)
Definition get_user_friendly_error (error_str : string) : string :=
  let error_lower := lower error_str in
  if str_in "503" error_str || str_in "overloaded" error_lower
     || str_in "unavailable" error_lower then busy_retry_message
  else if str_in "401" error_str || str_in "unauthorized" error_lower then
    auth_support_message
  else if str_in "429" error_str || str_in "rate limit" error_lower then
    throttle_message
  else if str_in "timeout" error_lower then slow_retry_message
  else if str_in "network" error_lower || str_in "connection" error_lower then
    connectivity_message
  else if str_in "file" error_lower && str_in "size" error_lower then
    oversize_message
  else if str_in "invalid" error_lower && str_in "image" error_lower then
    bad_format_message
  else generic_message.


(** *** Image Ingestor *)

(** What the code reads of a FastAPI [UploadFile]: the name, the declared
    content type (absent when the part declares none) and the bytes that
    [await image_file.read()] returns. *)
Record UploadFile : Type := {
  filename : option string;
  content_type : option string;
  file_content : list byte
}.

Definition too_large_detail : string :=
  "📁 The uploaded image is too large. Please use an image smaller than 10MB.".
Definition invalid_type_detail : string :=
  "🖼️ Invalid file type. Please upload a valid image file (PNG, JPG, or GIF).".
Definition empty_file_detail : string :=
  "📁 The uploaded file is empty. Please select a valid image file.".

(** The error taxonomy of the Image Ingestor. *)
Definition PayloadTooLarge : exn := HTTPException 400 too_large_detail.
Definition InvalidMediaType : exn := HTTPException 400 invalid_type_detail.
Definition EmptyPayload : exn := HTTPException 400 empty_file_detail.

(** The pair of handlers that closes [process_uploaded_image] and every
    endpoint: an [HTTPException] is raised again as it is, any other
    exception becomes a 500 with the classified message. *)
Definition reraise_user_friendly {A : Type} (r : outcome A) : outcome A :=
  match r with
  | Returned a => Returned a
  | Raised (HTTPException c d) => Raised (HTTPException c d)
  | Raised (Exception m) =>
      Raised (HTTPException 500 (get_user_friendly_error (str_of_exn (Exception m))))
  end.

(** [process_uploaded_image(image_file)] *)
Definition process_uploaded_image (image_file : UploadFile) : outcome string :=
  reraise_user_friendly
    (let max_size := (10 * 1024 * 1024)%Z in
     let image_content := file_content image_file in
     if (len image_content >? max_size)%Z then Raised PayloadTooLarge
     else if negb (truthy (content_type image_file))
             || negb (match content_type image_file with
                      | Some t => startswith t "image/"
                      | None => false
                      end)
     then Raised InvalidMediaType
     else if (len image_content =? 0)%Z then Raised EmptyPayload
     else
       let image_base64 := decode_utf8 (b64encode image_content) in
       Returned image_base64).

(** *** The response model *)

Record StockAnalysisResponse : Type := {
  symbol : string;
  exchange : string;
  chart_image : string;
  analysis : string;
  fundamental_analysis : string;
  sentiment_analysis : string;
  technical_analysis : string;
  recommendations : string;
  timestamp : string
}.

(** *** The external chat client *)

Record ImageContent : Type := { image_base64 : string }.

Record UserMessage : Type := {
  text : string;
  file_contents : list ImageContent
}.

(** One call of the LLM Gateway, as the log of calls records it. *)
Record GatewayCall : Type := {
  call_api_key : string;
  call_prompt : string;
  call_image : option string
}.

Section Gateway.

(** The state of the external AI service as one task sees it (and of
    whatever else the client reads: the clock, the session ids). *)
Variable World : Type.

(** [LlmChat(api_key=..., ...).with_model(...).send_message(msg)]:
    the text of the answer, or [str(e)] of the exception it raises. *)
Variable send_message :
  string -> UserMessage -> World -> (string + string) * World.

(** [datetime.now().strftime('%Y-%m-%d %H:%M:%S')] *)
Variable strftime_now : World -> string.

(** The module-level list of API keys.  In the source it is a literal of
    three keys, the first one read from the environment; the functions
    below read it as a global, here it is their parameter. *)
Variable GEMINI_API_KEYS : list string.

(** The prompt templates of the four sections, functions of
    [symbol] and [exchange].  They are long literal texts which the
    code hands to the gateway as they are. *)
Variable fundamental_prompt : string -> string -> string.
Variable sentiment_prompt : string -> string -> string.
Variable technical_prompt : string -> string -> string.
Variable recommendations_prompt : string -> string -> string.

(** The two templates of [analyze_with_fallback], chosen by
    [use_legacy_prompt]; the first one embeds the current time. *)
Variable legacy_prompt : string -> string -> string -> string.
Variable structured_prompt : string -> string -> string.

(** [str(e)] of the pydantic error for the fields that are not a [str]. *)
Variable validation_error : list string -> string.

Record St : Type := {
  world : World;
  gateway_calls : list GatewayCall
}.

Definition M (A : Type) : Type := St -> outcome A * St.

#[local] Instance Monad_M : Monad M := {
  ret := fun A (a : A) (s : St) => (Returned a, s);
  bind := fun A B (m : M A) (k : A -> M B) (s : St) =>
            match m s with
            | (Returned a, s') => k a s'
            | (Raised e, s') => (Raised e, s')
            end
}.

Definition raise {A : Type} (e : exn) : M A := fun s => (Raised e, s).

(** [try: body  except Exception as e: handler] *)
Definition try_except {A : Type} (body : M A) (handler : exn -> M A) : M A :=
  fun s =>
    match body s with
    | (Returned a, s') => (Returned a, s')
    | (Raised e, s') => handler e s'
    end.

Definition now : M string := fun s => (Returned (strftime_now (world s)), s).

Import MonadNotation.
Local Open Scope monad_scope.

(** [analyze_with_gemini_api(api_key, prompt, chart_image_base64=None)] *)
Definition analyze_with_gemini_api
    (api_key prompt : string) (chart_image_base64 : option string) : M string :=
  try_except
    (fun s =>
       let user_message :=
         match chart_image_base64 with
         | Some (String c b) =>
             {| text := prompt;
                file_contents := [ {| image_base64 := String c b |} ] |}
         | _ => {| text := prompt; file_contents := [] |}
         end in
       let '(response, w) := send_message api_key user_message (world s) in
       let s' := {| world := w;
                    gateway_calls :=
                      gateway_calls s ++
                      [ {| call_api_key := api_key;
                           call_prompt := prompt;
                           call_image := chart_image_base64 |} ] |} in
       match response with
       | inl answer => (Returned answer, s')
       | inr msg => (Raised (Exception msg), s')
       end)
    (fun e => raise e).

(** *** Fallback Executor *)

(** The loop [for i, api_key in enumerate(GEMINI_API_KEYS)] that
    closes each of the four section functions, from index [i] on with
    [keys] still to visit.  When the loop runs out the function ends
    without a [return]: the caller gets [None]. *)
Fixpoint try_api_keys (i : Z) (keys : list string)
    (prompt : string) (chart_image_base64 : option string) : M (option string) :=
  match keys with
  | [] => ret None
  | api_key :: rest =>
      try_except
        (result <- analyze_with_gemini_api api_key prompt chart_image_base64 ;;
         ret (Some result))
        (fun e =>
           if (i =? Z.of_nat (List.length GEMINI_API_KEYS) - 1)%Z then
             raise (HTTPException 503 (get_user_friendly_error (str_of_exn e)))
           else try_api_keys (i + 1)%Z rest prompt chart_image_base64)
  end.

(** [get_fundamental_analysis(symbol, exchange)] *)
Definition get_fundamental_analysis (symbol exchange : string) : M (option string) :=
  let prompt := fundamental_prompt symbol exchange in
  try_api_keys 0 GEMINI_API_KEYS prompt None.

(** [get_sentiment_analysis(symbol, exchange)] *)
Definition get_sentiment_analysis (symbol exchange : string) : M (option string) :=
  let prompt := sentiment_prompt symbol exchange in
  try_api_keys 0 GEMINI_API_KEYS prompt None.

(** [get_technical_analysis(symbol, exchange, chart_image_base64)] *)
Definition get_technical_analysis
    (symbol exchange chart_image_base64 : string) : M (option string) :=
  let prompt := technical_prompt symbol exchange in
  try_api_keys 0 GEMINI_API_KEYS prompt (Some chart_image_base64).

(** [get_recommendations(symbol, exchange)] *)
Definition get_recommendations (symbol exchange : string) : M (option string) :=
  let prompt := recommendations_prompt symbol exchange in
  try_api_keys 0 GEMINI_API_KEYS prompt None.

Definition all_busy_detail : string :=
  "🔄 All AI services are currently busy. Please try again in a few moments.".

(** The loop of [analyze_with_fallback], from index [i] on. *)
Fixpoint analyze_with_fallback_loop (i : Z) (keys : list string)
    (symbol exchange chart_image_base64 : string) (use_legacy_prompt : bool)
    : M string :=
  match keys with
  | [] => raise (HTTPException 503 all_busy_detail)
  | api_key :: rest =>
      try_except
        (prompt <- (if use_legacy_prompt
                    then t <- now ;; ret (legacy_prompt symbol exchange t)
                    else ret (structured_prompt symbol exchange)) ;;
         analyze_with_gemini_api api_key prompt (Some chart_image_base64))
        (fun e =>
           let error_str := str_of_exn e in
           if (i =? Z.of_nat (List.length GEMINI_API_KEYS) - 1)%Z then
             let user_friendly_error := get_user_friendly_error error_str in
             raise (HTTPException 503 user_friendly_error)
           else if str_in "503" error_str || str_in "overloaded" (lower error_str)
           then analyze_with_fallback_loop (i + 1)%Z rest
                  symbol exchange chart_image_base64 use_legacy_prompt
           else analyze_with_fallback_loop (i + 1)%Z rest
                  symbol exchange chart_image_base64 use_legacy_prompt)
  end.

(** [analyze_with_fallback(symbol, exchange, chart_image_base64,
    use_legacy_prompt=False)] *)
Definition analyze_with_fallback
    (symbol exchange chart_image_base64 : string) (use_legacy_prompt : bool)
    : M string :=
  analyze_with_fallback_loop 0 GEMINI_API_KEYS
    symbol exchange chart_image_base64 use_legacy_prompt.

(** The policy as the specification words it: on any failure of a key
    that is not the last, go on to the next key, whatever the error. *)
Fixpoint fallback_uniform_loop (i : Z) (keys : list string)
    (symbol exchange chart_image_base64 : string) (use_legacy_prompt : bool)
    : M string :=
  match keys with
  | [] => raise (HTTPException 503 all_busy_detail)
  | api_key :: rest =>
      try_except
        (prompt <- (if use_legacy_prompt
                    then t <- now ;; ret (legacy_prompt symbol exchange t)
                    else ret (structured_prompt symbol exchange)) ;;
         analyze_with_gemini_api api_key prompt (Some chart_image_base64))
        (fun e =>
           if (i =? Z.of_nat (List.length GEMINI_API_KEYS) - 1)%Z then
             raise (HTTPException 503 (get_user_friendly_error (str_of_exn e)))
           else fallback_uniform_loop (i + 1)%Z rest
                  symbol exchange chart_image_base64 use_legacy_prompt)
  end.

Definition fallback_uniform
    (symbol exchange chart_image_base64 : string) (use_legacy_prompt : bool)
    : M string :=
  fallback_uniform_loop 0 GEMINI_API_KEYS
    symbol exchange chart_image_base64 use_legacy_prompt.

(** *** Analysis Orchestrator *)

(** [asyncio.gather(..., return_exceptions=True)]: every task runs
    to its end and an exception a task raises is its result.  The tasks
    share no state of the program; what the external service answers to
    the calls of task [i] is the world [task_world i]. *)
Fixpoint gather {A : Type} (task_world : nat -> World) (i : nat)
    (tasks : list (M A)) : list (outcome A) :=
  match tasks with
  | [] => []
  | task :: rest =>
      fst (task {| world := task_world i; gateway_calls := [] |})
        :: gather task_world (S i) rest
  end.

Definition section_names : list string :=
  ["Fundamental"; "Sentiment"; "Technical"; "Recommendations"].

(** [f"⚠️ {section_names[i]} analysis temporarily unavailable. Please try again."] *)
Definition unavailable_placeholder (i : nat) : string :=
  "⚠️ " ++ nth i section_names "" ++
  " analysis temporarily unavailable. Please try again.".

(** The loop over [enumerate(analyses)] that overwrites every entry
    that is an instance of [Exception]. *)
Fixpoint replace_failed (i : nat) (analyses : list (outcome (option string)))
    : list (option string) :=
  match analyses with
  | [] => []
  | analysis :: rest =>
      match analysis with
      | Raised _ => Some (unavailable_placeholder i)
      | Returned v => v
      end :: replace_failed (S i) rest
  end.

Definition not_a_str (field : string) (v : option string) : list string :=
  match v with
  | Some _ => []
  | None => [field]
  end.

(** [StockAnalysisResponse(...)]: pydantic refuses [None] in a field
    declared [str]. *)
Definition new_StockAnalysisResponse
    (symbol exchange chart_image analysis : string)
    (fundamental_analysis sentiment_analysis : option string)
    (technical_analysis recommendations : option string)
    (timestamp : string) : outcome StockAnalysisResponse :=
  match fundamental_analysis, sentiment_analysis,
        technical_analysis, recommendations with
  | Some f, Some s, Some t, Some r =>
      Returned {| symbol := symbol; exchange := exchange;
                  chart_image := chart_image; analysis := analysis;
                  fundamental_analysis := f; sentiment_analysis := s;
                  technical_analysis := t; recommendations := r;
                  timestamp := timestamp |}
  | _, _, _, _ =>
      Raised (Exception (validation_error
        (not_a_str "fundamental_analysis" fundamental_analysis ++
         not_a_str "sentiment_analysis" sentiment_analysis ++
         not_a_str "technical_analysis" technical_analysis ++
         not_a_str "recommendations" recommendations)))
  end.

Definition nl : string := String (ascii_of_nat 10) EmptyString.

(** The legacy combined text of [analyze_stock]. *)
Definition legacy_analysis_text (symbol exchange generated : string) : string :=
  "📊 Stock Analysis Report" ++ nl ++ nl ++
  "📌 Symbol: " ++ upper symbol ++ nl ++
  "📅 Timeframe: Multi-Section Analysis" ++ nl ++
  "🔍 Exchange: " ++ upper exchange ++ nl ++ nl ++
  "This is a comprehensive multi-section analysis. Please use the individual sections (Fundamental, Sentiment, Technical, Recommendations) for detailed insights." ++ nl ++ nl ++
  "Generated: " ++ generated.

(** [analyze_stock(symbol, exchange, image)], the handler of
    [POST /api/analyze-stock].  [generated] and [timestamp] are the two
    readings of the clock.  [Returned] is the HTTP 200 response;
    [Raised (HTTPException c d)] is the error response of status [c]. *)
Definition analyze_stock (symbol exchange : string) (image : UploadFile)
    (task_world : nat -> World) (generated timestamp : string)
    : outcome StockAnalysisResponse :=
  reraise_user_friendly
    (match process_uploaded_image image with
     | Raised e => Raised e
     | Returned chart_image_base64 =>
         let results :=
           gather task_world 0
             [ get_fundamental_analysis symbol exchange;
               get_sentiment_analysis symbol exchange;
               get_technical_analysis symbol exchange chart_image_base64;
               get_recommendations symbol exchange ] in
         let analyses := replace_failed 0 results in
         match analyses with
         | [fundamental; sentiment; technical; recommended] =>
             let legacy_analysis :=
               legacy_analysis_text symbol exchange generated in
             new_StockAnalysisResponse
               (upper symbol) (upper exchange)
               ("data:image/png;base64," ++ chart_image_base64)
               legacy_analysis
               fundamental sentiment technical recommended
               timestamp
         | _ => Raised (Exception "not enough values to unpack")
         end
     end).

End Gateway.

Arguments world {World} s.
Arguments gateway_calls {World} s.
Arguments Build_St {World} world gateway_calls.
Arguments raise {World A} e s.
Arguments try_except {World A} body handler s.

(** *** [POST /api/upload-image] *)

Record UploadImageResult : Type := {
  success : bool;
  message : string;
  image_data : string;
  uploaded_filename : option string
}.

(** [upload_image(file)] *)
Definition upload_image (file : UploadFile) : outcome UploadImageResult :=
  reraise_user_friendly
    (match process_uploaded_image file with
     | Raised e => Raised e
     | Returned image_base64 =>
         Returned {| success := true;
                     message := "✅ Image uploaded successfully! Ready for analysis.";
                     image_data := image_base64;
                     uploaded_filename := filename file |}
     end).

(** *** The legacy path: chart provider, deprecated executors, legacy endpoint *)

(** What the code reads of the [requests] response of the chart provider. *)
Record ChartResponse : Type := {
  status_code : Z;
  content : list byte;
  response_text : string
}.

(** A value of the [params] dictionary. *)
Inductive param : Type :=
| PStr (s : string)
| PInt (n : Z).

(** The arguments of [requests.get]. *)
Record GetRequest : Type := {
  url : string;
  headers : list (string * option string);
  params : list (string * param);
  timeout : Z
}.

(** [StockAnalysisRequest], the JSON body of the legacy endpoint. *)
Record StockAnalysisRequest : Type := {
  request_symbol : string;
  request_exchange : string;
  request_image_data : option string
}.

(** A keyword argument of a pydantic model: not passed, or passed with a
    value that is [None] or a [str]. *)
Inductive kwarg : Type :=
| NotPassed
| Passed (v : option string).

Definition refused (field : string) (a : kwarg) : list string :=
  match a with
  | Passed (Some _) => []
  | _ => [field]
  end.

Section Legacy.

Variable World : Type.
Variable send_message : string -> UserMessage -> World -> (string + string) * World.

(** [requests.get(url, headers=..., params=..., timeout=30)]: the response,
    or [str(e)] of the exception it raises. *)
Variable requests_get : GetRequest -> World -> (ChartResponse + string) * World.

Variable strftime_now : World -> string.

(** [datetime.now().isoformat()] *)
Variable isoformat_now : World -> string.

(** [os.getenv("CHART_IMG_API_KEY")] *)
Variable CHART_IMG_API_KEY : option string.

Variable GEMINI_API_KEYS : list string.

(** The prompt templates of the two deprecated executors: functions of
    [symbol] and [exchange], the first also of the current time. *)
Variable legacy_report_prompt : string -> string -> string -> string.
Variable deprecated_prompt : string -> string -> string.

(** [str(e)] of the pydantic error for the fields it refuses. *)
Variable validation_error : list string -> string.

#[local] Existing Instance Monad_M.
Import MonadNotation.
Local Open Scope monad_scope.

(** [StockAnalysisResponse(name=value, ...)]: every field is a required
    [str]. *)
Definition StockAnalysisResponse_init
    (symbol exchange chart_image analysis : kwarg)
    (fundamental_analysis sentiment_analysis : kwarg)
    (technical_analysis recommendations timestamp : kwarg)
    : outcome StockAnalysisResponse :=
  match symbol, exchange, chart_image, analysis, fundamental_analysis,
        sentiment_analysis, technical_analysis, recommendations, timestamp with
  | Passed (Some sy), Passed (Some ex), Passed (Some ch), Passed (Some an),
    Passed (Some fu), Passed (Some se), Passed (Some te), Passed (Some re),
    Passed (Some ti) =>
      Returned {| Server.symbol := sy; Server.exchange := ex;
                  Server.chart_image := ch; Server.analysis := an;
                  Server.fundamental_analysis := fu;
                  Server.sentiment_analysis := se;
                  Server.technical_analysis := te;
                  Server.recommendations := re;
                  Server.timestamp := ti |}
  | _, _, _, _, _, _, _, _, _ =>
      Raised (Exception (validation_error
        (refused "symbol" symbol ++ refused "exchange" exchange ++
         refused "chart_image" chart_image ++ refused "analysis" analysis ++
         refused "fundamental_analysis" fundamental_analysis ++
         refused "sentiment_analysis" sentiment_analysis ++
         refused "technical_analysis" technical_analysis ++
         refused "recommendations" recommendations ++
         refused "timestamp" timestamp)%list))
  end.

(** The call of [requests.get] in the monad: it changes the world and
    makes no gateway call. *)
Definition http_get (request : GetRequest) : M World ChartResponse :=
  fun s =>
    let '(r, w) := requests_get request (world s) in
    (match r with
     | inl response => Returned response
     | inr msg => Raised (Exception msg)
     end,
     {| world := w; gateway_calls := gateway_calls s |}).

(** [fetch_chart_image(symbol, exchange)] *)
Definition fetch_chart_image (symbol exchange : string) : M World string :=
  try_except
    (let headers :=
       [ ("x-api-key", CHART_IMG_API_KEY);
         ("Content-Type", Some "application/json") ] in
     let full_symbol := upper exchange ++ ":" ++ upper symbol in
     let params :=
       [ ("symbol", PStr full_symbol);
         ("interval", PStr "1D");
         ("width", PInt 800);
         ("height", PInt 400);
         ("theme", PStr "dark") ] in
     response <- http_get
                   {| url := "https://api.chart-img.com/v1/tradingview/mini-chart";
                        headers := headers;
                        params := params;
                        timeout := 30 |} ;;
     if (status_code response =? 200)%Z then
       let image_base64 := decode_utf8 (b64encode (content response)) in
       ret image_base64
     else
       raise (HTTPException (status_code response)
                ("Failed to fetch chart: " ++ response_text response)))
    (fun e => raise (HTTPException 500 ("Chart fetch error: " ++ str_of_exn e))).

(** [analyze_stock_with_gemini_legacy(symbol, exchange, chart_image_base64)]:
    the prompt is built once, before the loop. *)
Definition analyze_stock_with_gemini_legacy
    (symbol exchange chart_image_base64 : string) : M World (option string) :=
  t <- now World strftime_now ;;
  let prompt := legacy_report_prompt symbol exchange t in
  try_api_keys World send_message GEMINI_API_KEYS 0 GEMINI_API_KEYS
    prompt (Some chart_image_base64).

(** [analyze_stock_with_gemini(symbol, exchange, chart_image_base64)] *)
Definition analyze_stock_with_gemini
    (symbol exchange chart_image_base64 : string) : M World (option string) :=
  let prompt := deprecated_prompt symbol exchange in
  try_api_keys World send_message GEMINI_API_KEYS 0 GEMINI_API_KEYS
    prompt (Some chart_image_base64).

(** The pair of handlers that closes every endpoint, in the monad. *)
Definition reraising {A : Type} (body : M World A) : M World A :=
  fun s => let '(r, s') := body s in (reraise_user_friendly r, s').

(** [analyze_stock_legacy(request)], the handler of
    [POST /api/analyze-stock-legacy].  The response is built without the
    four section fields. *)
Definition analyze_stock_legacy (request : StockAnalysisRequest)
    : M World StockAnalysisResponse :=
  reraising
    (chart_image_base64 <-
       fetch_chart_image (request_symbol request) (request_exchange request) ;;
     analysis <-
       analyze_stock_with_gemini_legacy
         (request_symbol request) (request_exchange request) chart_image_base64 ;;
     fun s =>
       (StockAnalysisResponse_init
          (Passed (Some (upper (request_symbol request))))
          (Passed (Some (upper (request_exchange request))))
          (Passed (Some ("data:image/png;base64," ++ chart_image_base64)))
          (Passed analysis)
          NotPassed NotPassed NotPassed NotPassed
          (Passed (Some (isoformat_now (world s)))),
        s)).

End Legacy.

End Server.
Import Server.

(** ** The Error Classifier over the case mapping of Python *)

(** [str.lower()] follows the case mapping of Unicode, which is data of the
    Python runtime: it lowers the Kelvin sign to [k], for one.  Here the
    classifier is written over that function, taken as it is. *)
Module PyUnicode.

Section CaseMapping.

(** [s.lower()] *)
Variable str_lower : string -> string.

(** [get_user_friendly_error(error_str)] *)
Definition get_user_friendly_error (error_str : string) : string :=
  let error_lower := str_lower error_str in
  if str_in "503" error_str || str_in "overloaded" error_lower
     || str_in "unavailable" error_lower then busy_retry_message
  else if str_in "401" error_str || str_in "unauthorized" error_lower then
    auth_support_message
  else if str_in "429" error_str || str_in "rate limit" error_lower then
    throttle_message
  else if str_in "timeout" error_lower then slow_retry_message
  else if str_in "network" error_lower || str_in "connection" error_lower then
    connectivity_message
  else if str_in "file" error_lower && str_in "size" error_lower then
    oversize_message
  else if str_in "invalid" error_lower && str_in "image" error_lower then
    bad_format_message
  else generic_message.

End CaseMapping.

End PyUnicode.

(** ** [api/upload-image.py] *)
Module UploadImageApi.

(** A part of the form, as [cgi.FieldStorage] gives it: its name and file
    name, absent when the part declares none, and the bytes that
    [file.read()] returns; [file] is [None] for a part that has no file
    object. *)
Record FieldItem : Type := {
  name : option string;
  filename : option string;
  file : option (list byte)
}.

(** The object [cgi.FieldStorage(...)] builds: the list of its parts, or
    [None] when the body it read is not a form. *)
Definition FieldStorage : Type := option (list FieldItem).

(** The JSON bodies the handler writes are flat objects. *)
Inductive jvalue : Type :=
| JStr (s : string)
| JBool (b : bool).

Definition json : Type := list (string * jvalue).

(** What the handler does to the connection, in order. *)
Inductive wire : Type :=
| send_response (code : Z)
| send_header (keyword value : string)
| end_headers
| write_json (body : json).

Definition named (key : string) (item : FieldItem) : bool :=
  match name item with
  | Some n => String.eqb n key
  | None => false
  end.

(** [key in form] *)
Definition form_contains (form : FieldStorage) (key : string) : outcome bool :=
  match form with
  | None => Raised (Exception "not indexable")
  | Some parts => Returned (existsb (named key) parts)
  end.

(** What [form[key]] gives: the part of that name, or the list of the
    parts of that name when there are several. *)
Inductive form_value : Type :=
| OnePart (item : FieldItem)
| PartList (items : list FieldItem).

(** [form[key]] *)
Definition form_getitem (form : FieldStorage) (key : string) : outcome form_value :=
  match form with
  | None => Raised (Exception "not indexable")
  | Some parts =>
      match filter (named key) parts with
      | [] => Raised (Exception ("'" ++ key ++ "'"))
      | [item] => Returned (OnePart item)
      | items => Returned (PartList items)
      end
  end.

Definition empty_file_error : string := "📁 The uploaded file is empty".
Definition too_large_error : string :=
  "📁 The uploaded image is too large. Please use an image smaller than 10MB.".

(** The [try] block of [do_POST] after the headers are sent.
    [content_type] is [self.headers.get('Content-Type', '')]; [form] is what
    [cgi.FieldStorage(fp=..., headers=..., environ=...)] does on the request:
    it returns the parsed form or raises (a multipart header without a
    valid boundary, a body it cannot read). *)
Definition do_POST_body (content_type : string)
    (form : outcome FieldStorage) : outcome json :=
  if negb (str_in "multipart/form-data" content_type) then
    Raised (Exception "Invalid content type")
  else
    match form with
    | Raised e => Raised e
    | Returned form =>
        match form_contains form "file" with
        | Raised e => Raised e
        | Returned false => Raised (Exception "No file uploaded")
        | Returned true =>
            match form_getitem form "file" with
            | Raised e => Raised e
            | Returned (PartList _) =>
                Raised (Exception "'list' object has no attribute 'filename'")
            | Returned (OnePart file_item) =>
                if negb (truthy (filename file_item)) then
                  Raised (Exception "No file selected")
                else
                  match file file_item with
                  | None =>
                      Raised (Exception "'NoneType' object has no attribute 'read'")
                  | Some image_data =>
                      if (len image_data =? 0)%Z then
                        Raised (Exception empty_file_error)
                      else if (len image_data >? 10 * 1024 * 1024)%Z then
                        Raised (Exception too_large_error)
                      else
                        let image_base64 := decode_utf8 (b64encode image_data) in
                        Returned
                          [ ("success", JBool true);
                            ("message",
                             JStr "✅ Image uploaded successfully! Ready for analysis.");
                            ("image_data", JStr image_base64);
                            ("filename", JStr (match filename file_item with
                                               | Some n => n
                                               | None => ""
                                               end)) ]
                  end
            end
        end
    end.

(** [handler.do_POST] *)
Definition do_POST (content_type : string)
    (form : outcome FieldStorage) : list wire :=
  [ send_response 200;
    send_header "Content-type" "application/json";
    send_header "Access-Control-Allow-Origin" "*";
    send_header "Access-Control-Allow-Methods" "GET, POST, OPTIONS";
    send_header "Access-Control-Allow-Headers" "*";
    end_headers ] ++
  match do_POST_body content_type form with
  | Returned response => [ write_json response ]
  | Raised e =>
      [ send_response 400;
        send_header "Content-type" "application/json";
        send_header "Access-Control-Allow-Origin" "*";
        end_headers;
        write_json [ ("error", JStr (str_of_exn e)) ] ]
  end.

End UploadImageApi.

(** ** Vocabulary of the properties *)

(** The media-type test of [process_uploaded_image], as one boolean: a
    content type is declared and begins with [image/]. *)
Definition declares_image (o : option string) : bool :=
  match o with
  | Some t => startswith t "image/"
  | None => false
  end.

(** *** The Error Classifier as the specification words it *)

(** Two characters are the same letter when they differ by case at most. *)
Definition same_letter (a b : ascii) : bool :=
  Ascii.eqb (lower_char a) (lower_char b).

(** [p] is a prefix of [s], case not counted. *)
Fixpoint ci_prefix (p s : string) : bool :=
  match p with
  | EmptyString => true
  | String a p' =>
      match s with
      | EmptyString => false
      | String b s' => same_letter a b && ci_prefix p' s'
      end
  end.

(** [p] occurs in [s], case not counted. *)
Fixpoint ci_in (p s : string) : bool :=
  ci_prefix p s ||
  match s with
  | EmptyString => false
  | String _ s' => ci_in p s'
  end.

(** A pattern of the classifier: one of several words occurs, or all of
    several words occur. *)
Inductive pattern : Type :=
| AnyOf (words : list string)
| AllOf (words : list string).

Definition matches (p : pattern) (s : string) : bool :=
  match p with
  | AnyOf words => existsb (fun w => ci_in w s) words
  | AllOf words => forallb (fun w => ci_in w s) words
  end.

(** The rules in their fixed order of priority. *)
Definition classifier_rules : list (pattern * string) :=
  [ (AnyOf ["503"; "overloaded"; "unavailable"], busy_retry_message);
    (AnyOf ["401"; "unauthorized"], auth_support_message);
    (AnyOf ["429"; "rate limit"], throttle_message);
    (AnyOf ["timeout"], slow_retry_message);
    (AnyOf ["network"; "connection"], connectivity_message);
    (AllOf ["file"; "size"], oversize_message);
    (AllOf ["invalid"; "image"], bad_format_message) ].

(** The first rule that matches decides; no rule gives the generic message. *)
Fixpoint first_match (rules : list (pattern * string)) (s : string) : string :=
  match rules with
  | [] => generic_message
  | (p, message) :: rest => if matches p s then message else first_match rest s
  end.

Definition classify (raw_error_text : string) : string :=
  first_match classifier_rules raw_error_text.

Definition is_digit (c : ascii) : bool :=
  let n := N_of_ascii c in ((48 <=? n) && (n <=? 57))%N.

Fixpoint all_digits (s : string) : bool :=
  match s with
  | EmptyString => true
  | String c s' => is_digit c && all_digits s'
  end.

(** A character of ASCII text. *)
Definition is_ascii_text_char (c : ascii) : bool := (N_of_ascii c <? 128)%N.

Fixpoint is_ascii_text (s : string) : bool :=
  match s with
  | EmptyString => true
  | String c s' => is_ascii_text_char c && is_ascii_text s'
  end.

(** A pattern occurs in a text, case not counted, when it occurs in the
    lowered text; a status code has no case and is sought in the text as it
    is. *)
Definition occurs_lowered (str_lower : string -> string) (w s : string) : bool :=
  if all_digits w then str_in w s else str_in w (str_lower s).

Definition matches_by (occurs : string -> string -> bool) (p : pattern) (s : string)
    : bool :=
  match p with
  | AnyOf words => existsb (fun w => occurs w s) words
  | AllOf words => forallb (fun w => occurs w s) words
  end.

(** The first rule that matches decides; no rule gives the generic message. *)
Fixpoint first_match_by (occurs : string -> string -> bool)
    (rules : list (pattern * string)) (s : string) : string :=
  match rules with
  | [] => generic_message
  | (p, message) :: rest =>
      if matches_by occurs p s then message else first_match_by occurs rest s
  end.

(** The classifier as the specification words it, over [str.lower]. *)
Definition classify_lowered (str_lower : string -> string) (raw_error_text : string)
    : string :=
  first_match_by (occurs_lowered str_lower) classifier_rules raw_error_text.

(** The status codes the classifier looks for. *)
Definition status_codes : list string := ["503"; "401"; "429"].


(** The four sections of the data model, in the order of
    [section_names] and of the tasks handed to [asyncio.gather]. *)
Inductive AnalysisSection : Type :=
| Fundamental
| Sentiment
| Technical
| Recommendations.

Definition section_index (sec : AnalysisSection) : nat :=
  match sec with
  | Fundamental => 0
  | Sentiment => 1
  | Technical => 2
  | Recommendations => 3
  end.

Section Vocabulary.

Variable World : Type.
Variable send_message : string -> UserMessage -> World -> (string + string) * World.
Variable strftime_now : World -> string.
Variable GEMINI_API_KEYS : list string.
Variable fundamental_prompt sentiment_prompt : string -> string -> string.
Variable technical_prompt recommendations_prompt : string -> string -> string.
Variable legacy_prompt : string -> string -> string -> string.
Variable structured_prompt : string -> string -> string.

(** The analysis function of a section. *)
Definition section_task (sec : AnalysisSection)
    (symbol exchange chart_image_base64 : string) : M World (option string) :=
  match sec with
  | Fundamental =>
      get_fundamental_analysis World send_message GEMINI_API_KEYS
        fundamental_prompt symbol exchange
  | Sentiment =>
      get_sentiment_analysis World send_message GEMINI_API_KEYS
        sentiment_prompt symbol exchange
  | Technical =>
      get_technical_analysis World send_message GEMINI_API_KEYS
        technical_prompt symbol exchange chart_image_base64
  | Recommendations =>
      get_recommendations World send_message GEMINI_API_KEYS
        recommendations_prompt symbol exchange
  end.

(** The prompt and the image a section sends to the gateway. *)
Definition section_prompt (sec : AnalysisSection) (symbol exchange : string) : string :=
  match sec with
  | Fundamental => fundamental_prompt symbol exchange
  | Sentiment => sentiment_prompt symbol exchange
  | Technical => technical_prompt symbol exchange
  | Recommendations => recommendations_prompt symbol exchange
  end.

Definition section_image (sec : AnalysisSection) (chart_image_base64 : string)
    : option string :=
  match sec with
  | Technical => Some chart_image_base64
  | _ => None
  end.

(** One attempt of a section with one key: the gateway call of the loop body. *)
Definition section_attempt (sec : AnalysisSection)
    (symbol exchange chart_image_base64 : string) (api_key : string) : M World string :=
  analyze_with_gemini_api World send_message api_key
    (section_prompt sec symbol exchange) (section_image sec chart_image_base64).

(** One attempt of [analyze_with_fallback] with one key: the [try] block
    of its loop, which builds the prompt and calls the gateway. *)
Definition fallback_attempt (symbol exchange chart_image_base64 : string)
    (use_legacy_prompt : bool) (api_key : string) : M World string :=
  fun s =>
    let prompt :=
      if use_legacy_prompt
      then legacy_prompt symbol exchange (strftime_now (world s))
      else structured_prompt symbol exchange in
    analyze_with_gemini_api World send_message api_key prompt
      (Some chart_image_base64) s.

(** [keys_fail attempt keys s s' last_error]: from state [s], the attempts
    with the keys of [keys], one after the other, all raise, and leave
    state [s']; [last_error] is the exception of the last of them, if there
    was an attempt at all. *)
Inductive keys_fail {A : Type} (attempt : string -> M World A)
    : list string -> St World -> St World -> option exn -> Prop :=
| keys_fail_none s : keys_fail attempt [] s s None
| keys_fail_more pre last s s1 s2 before e :
    keys_fail attempt pre s s1 before ->
    attempt last s1 = (Raised e, s2) ->
    keys_fail attempt (pre ++ [last]) s s2 (Some e).

(** The shape the fallback loops of the code share: try [attempt] with
    each key in turn; return at the first success; at a failure with the
    key of index [n - 1] raise the classified error; go on otherwise; do
    [exhausted] when the keys run out. *)
Fixpoint fallback_loop {A B : Type} (attempt : string -> M World A)
    (finish : A -> B) (exhausted : M World B) (n i : Z) (keys : list string)
    : M World B :=
  match keys with
  | [] => exhausted
  | api_key :: rest =>
      fun s =>
        match attempt api_key s with
        | (Returned a, s') => (Returned (finish a), s')
        | (Raised e, s') =>
            if (i =? n - 1)%Z then
              (Raised (HTTPException 503 (get_user_friendly_error (str_of_exn e))), s')
            else fallback_loop attempt finish exhausted n (i + 1)%Z rest s'
        end
  end.

(** An attempt makes one gateway call, with the key it is given. *)
Definition one_call_each {A : Type} (attempt : string -> M World A) : Prop :=
  forall api_key s r s',
    attempt api_key s = (r, s') ->
    exists call,
      gateway_calls s' = (gateway_calls s ++ [call])%list
      /\ call_api_key call = api_key.

(** What [asyncio.gather] returns for a section: the outcome of its task
    in the world of that task. *)
Definition section_outcome (sec : AnalysisSection)
    (symbol exchange chart_image_base64 : string) (task_world : nat -> World)
    : outcome (option string) :=
  fst (section_task sec symbol exchange chart_image_base64
         {| world := task_world (section_index sec); gateway_calls := [] |}).

(** What [analyze_stock] puts in the response for a section outcome. *)
Definition section_shown (sec : AnalysisSection) (o : outcome (option string))
    : option string :=
  match o with
  | Raised _ => Some (unavailable_placeholder (section_index sec))
  | Returned v => v
  end.

End Vocabulary.

Arguments keys_fail {World A} attempt _ _ _ _.
Arguments keys_fail_none {World A attempt} s.
Arguments keys_fail_more {World A attempt} pre last {s s1 s2 before e} _ _.

(** A test double of the external service: the world is the list of the
    answers it will give, in order; when the list is used up the connection
    is refused. *)
Definition scripted_send (api_key : string) (msg : UserMessage)
    (w : list (string + string)) : (string + string) * list (string + string) :=
  match w with
  | [] => (inr "connection refused", [])
  | answer :: rest => (answer, rest)
  end.

(** Prompts, a chain of three keys and states for runs with the test
    double. *)
Definition demo_prompt (label symbol exchange : string) : string :=
  label ++ " " ++ upper symbol ++ " " ++ upper exchange.

Definition demo_keys : list string := ["key-1"; "key-2"; "key-3"].

Definition demo_state (answers : list (string + string)) : St (list (string + string)) :=
  {| world := answers; gateway_calls := [] |}.

Definition demo_section_task (keys : list string) (sec : AnalysisSection)
    : M (list (string + string)) (option string) :=
  section_task (list (string + string)) scripted_send keys
    (demo_prompt "fundamental") (demo_prompt "sentiment")
    (demo_prompt "technical") (demo_prompt "recommendations")
    sec "aapl" "nasdaq" "iVBORw==".

Definition demo_analyze_with_fallback (keys : list string)
    : M (list (string + string)) string :=
  analyze_with_fallback (list (string + string)) scripted_send
    (fun _ => "2025-01-01 00:00:00") keys
    (fun symbol exchange t => demo_prompt "legacy" symbol exchange ++ " " ++ t)
    (demo_prompt "structured")
    "aapl" "nasdaq" "iVBORw==" false.

Definition demo_analyze_stock (image : UploadFile)
    (task_world : nat -> list (string + string)) : outcome StockAnalysisResponse :=
  analyze_stock (list (string + string)) scripted_send demo_keys
    (demo_prompt "fundamental") (demo_prompt "sentiment")
    (demo_prompt "technical") (demo_prompt "recommendations")
    (fun fields => "validation error")
    "aapl" "nasdaq" image task_world
    "2025-01-01 00:00:00" "2025-01-01T00:00:00".

(** The text of a section in the response. *)
Definition section_text (sec : AnalysisSection) (response : StockAnalysisResponse)
    : string :=
  match sec with
  | Fundamental => fundamental_analysis response
  | Sentiment => sentiment_analysis response
  | Technical => technical_analysis response
  | Recommendations => recommendations response
  end.

Definition section_name (sec : AnalysisSection) : string :=
  match sec with
  | Fundamental => "Fundamental"
  | Sentiment => "Sentiment"
  | Technical => "Technical"
  | Recommendations => "Recommendations"
  end.

(** The worlds of the four tasks: every task is answered at once, but
    for the task of index [failing], whose three keys all fail. *)
Definition one_section_down (failing i : nat) : list (string + string) :=
  if Nat.eqb i failing
  then [inr "503 Service Unavailable"; inr "503 Service Unavailable";
        inr "503 Service Unavailable"]
  else [inl "report"].

Definition all_sections_down (i : nat) : list (string + string) :=
  [inr "503 Service Unavailable"; inr "503 Service Unavailable";
   inr "503 Service Unavailable"].

(** A PNG upload, a JPEG upload, an upload that declares no type and
    uploads without content. *)
Definition png_upload : UploadFile :=
  {| Server.filename := Some "chart.png";
     content_type := Some "image/png";
     file_content := ["137"; "P"; "N"; "G"]%byte |}.

Definition jpeg_upload : UploadFile :=
  {| Server.filename := Some "chart.jpg";
     content_type := Some "image/jpeg";
     file_content := ["255"; "216"]%byte |}.

Definition untyped_upload : UploadFile :=
  {| Server.filename := Some "chart.png";
     content_type := None;
     file_content := ["137"; "P"; "N"; "G"]%byte |}.

Definition empty_text_upload : UploadFile :=
  {| Server.filename := Some "notes.txt";
     content_type := Some "text/plain";
     file_content := [] |}.

Definition empty_png_upload : UploadFile :=
  {| Server.filename := Some "chart.png";
     content_type := Some "image/png";
     file_content := [] |}.

Definition empty_form_file : UploadImageApi.FieldItem :=
  {| UploadImageApi.name := Some "file";
     UploadImageApi.filename := Some "chart.png";
     UploadImageApi.file := Some [] |}.

Arguments fallback_loop {World A B} attempt finish exhausted n i keys _.
Arguments one_call_each {World A} attempt.

(** *** Vocabulary of the further properties *)

(** The eight texts the Error Classifier can give. *)
Definition classifier_messages : list string :=
  [ busy_retry_message; auth_support_message; throttle_message;
    slow_retry_message; connectivity_message; oversize_message;
    bad_format_message; generic_message ].

(** Every character of [s] passes the test [p]. *)
Fixpoint all_chars (p : ascii -> bool) (s : string) : bool :=
  match s with
  | EmptyString => true
  | String c s' => p c && all_chars p s'
  end.

(** A character of base64 text: of the alphabet, or the padding. *)
Definition is_base64_byte (c : byte) : bool :=
  match b64_index c with
  | Some _ => true
  | None => Byte.eqb c b64_pad
  end.

Definition is_base64_char (c : ascii) : bool := is_base64_byte (byte_of_ascii c).

(** The first status line a handler run puts on the connection. *)
Fixpoint first_status (events : list UploadImageApi.wire) : option Z :=
  match events with
  | [] => None
  | UploadImageApi.send_response code :: _ => Some code
  | _ :: rest => first_status rest
  end.

(** [body[key]] of a JSON object. *)
Fixpoint json_get (body : UploadImageApi.json) (key : string)
    : option UploadImageApi.jvalue :=
  match body with
  | [] => None
  | (k, v) :: rest => if String.eqb k key then Some v else json_get rest key
  end.

(** The request [fetch_chart_image] sends to the chart provider. *)
Definition chart_request (CHART_IMG_API_KEY : option string)
    (symbol exchange : string) : GetRequest :=
  {| url := "https://api.chart-img.com/v1/tradingview/mini-chart";
     headers := [ ("x-api-key", CHART_IMG_API_KEY);
                  ("Content-Type", Some "application/json") ];
     params := [ ("symbol", PStr (upper exchange ++ ":" ++ upper symbol));
                 ("interval", PStr "1D");
                 ("width", PInt 800);
                 ("height", PInt 400);
                 ("theme", PStr "dark") ];
     timeout := 30 |}.

(** Test doubles of the chart provider: one that answers 200 with four
    bytes, one that answers 404. *)
Definition chart_found (request : GetRequest) (w : list (string + string))
    : (ChartResponse + string) * list (string + string) :=
  (inl {| status_code := 200;
          content := ["137"; "P"; "N"; "G"]%byte;
          response_text := "" |}, w).

Definition chart_not_found (request : GetRequest) (w : list (string + string))
    : (ChartResponse + string) * list (string + string) :=
  (inl {| status_code := 404; content := []; response_text := "Not Found" |}, w).

(** A part named [file] with four bytes, and the form that holds it. *)
Definition png_form_file : UploadImageApi.FieldItem :=
  {| UploadImageApi.name := Some "file";
     UploadImageApi.filename := Some "chart.png";
     UploadImageApi.file := Some ["137"; "P"; "N"; "G"]%byte |}.

Definition png_form : outcome UploadImageApi.FieldStorage :=
  Returned (Some [png_form_file]).

(* ===================================================================== *)
(** * Part II: properties                                                  *)
(* ===================================================================== *)

(** ** The model on concrete inputs *)

Example b64encode_Man :
  decode_utf8 (b64encode (encode_utf8 "Man")) = "TWFu"
  /\ decode_utf8 (b64encode (encode_utf8 "Ma")) = "TWE="
  /\ decode_utf8 (b64encode (encode_utf8 "M")) = "TQ=="
  /\ decode_utf8 (b64encode (encode_utf8 "light work.")) = "bGlnaHQgd29yay4=".
Proof. repeat split; reflexivity. Qed.

Example b64decode_text :
  b64decode (encode_utf8 "bGlnaHQgd29yay4=") = Some (encode_utf8 "light work.")
  /\ b64decode (encode_utf8 "TQ==") = Some (encode_utf8 "M")
  /\ b64decode (encode_utf8 "TQ=") = None.
Proof. repeat split; reflexivity. Qed.

Example classify_503 :
  get_user_friendly_error "Error code: 503 Service Unavailable" = busy_retry_message.
Proof. reflexivity. Qed.

Example classify_mixed_case :
  get_user_friendly_error "Request TimeOut" = slow_retry_message.
Proof. reflexivity. Qed.

(** ** Image Ingestor: the three validation errors *)

Section IngestorChecks.

Implicit Types image_file : UploadFile.

Lemma declares_image_truthy o : declares_image o = true -> truthy o = true.
Proof.
  destruct o as [[|c t]|]; simpl; intros H; try reflexivity; discriminate H.
Qed.

Lemma media_type_test o :
  negb (truthy o) || negb (declares_image o) = negb (declares_image o).
Proof.
  destruct (declares_image o) eqn:E.
  - rewrite (declares_image_truthy _ E). reflexivity.
  - apply orb_true_r.
Qed.

(** The decision list of [process_uploaded_image], one test after the
    other in the order of the code. *)
Lemma process_uploaded_image_cases image_file :
  process_uploaded_image image_file =
    if (len (file_content image_file) >? 10 * 1024 * 1024)%Z then
      Raised PayloadTooLarge
    else if negb (declares_image (content_type image_file)) then
      Raised InvalidMediaType
    else if (len (file_content image_file) =? 0)%Z then Raised EmptyPayload
    else Returned (decode_utf8 (b64encode (file_content image_file))).
Proof.
  unfold process_uploaded_image.
  fold (declares_image (content_type image_file)).
  rewrite media_type_test.
  destruct (len (file_content image_file) >? 10 * 1024 * 1024)%Z; [reflexivity|].
  destruct (negb (declares_image (content_type image_file))); [reflexivity|].
  destruct (len (file_content image_file) =? 0)%Z; reflexivity.
Qed.

Lemma ingest_errors_distinct :
  InvalidMediaType <> PayloadTooLarge /\ EmptyPayload <> PayloadTooLarge
  /\ EmptyPayload <> InvalidMediaType.
Proof. repeat split; discriminate. Qed.

End IngestorChecks.

(** C5. [process_uploaded_image] fails with [PayloadTooLarge] exactly when
    the payload is longer than 10*1024*1024 bytes: a payload of exactly that
    length is not refused for its size, and every longer one is refused with
    the oversize error. *)
Theorem C5_too_large_iff (image_file : UploadFile) :
  process_uploaded_image image_file = Raised PayloadTooLarge
  <-> (len (file_content image_file) > 10 * 1024 * 1024)%Z.
Proof.
  rewrite process_uploaded_image_cases.
  destruct ingest_errors_distinct as (Hi & He & _).
  destruct (len (file_content image_file) >? 10 * 1024 * 1024)%Z eqn:Hsize.
  - split; [intros _; apply Z.gtb_lt in Hsize; lia | reflexivity].
  - assert (Hle : (len (file_content image_file) <= 10 * 1024 * 1024)%Z).
    { destruct (Z.gtb_spec (len (file_content image_file)) (10 * 1024 * 1024));
        [discriminate Hsize | assumption]. }
    split; [|lia].
    destruct (negb (declares_image (content_type image_file))).
    + intros H. exfalso. apply Hi. congruence.
    + destruct (len (file_content image_file) =? 0)%Z.
      * intros H. exfalso. apply He. congruence.
      * discriminate.
Qed.

(** C6, as the claim states it, fails: an upload that declares no content
    type is refused with [InvalidMediaType]. *)
Lemma C6_counterexample :
  ~ (process_uploaded_image untyped_upload = Raised InvalidMediaType
     <-> exists t, content_type untyped_upload = Some t
                   /\ startswith t "image/" = false).
Proof.
  intros [H _]. destruct (H eq_refl) as (t & Ht & _). discriminate Ht.
Qed.

(** C6 (amended). [process_uploaded_image] fails with [InvalidMediaType]
    precisely when the payload is not longer than 10*1024*1024 bytes and the
    content type is absent or does not begin with [image/]; an upload
    without a declared type is refused by the media-type check. *)
Theorem C6_invalid_media_type_iff (image_file : UploadFile) :
  process_uploaded_image image_file = Raised InvalidMediaType
  <-> (len (file_content image_file) <= 10 * 1024 * 1024)%Z
      /\ (content_type image_file = None
          \/ exists t, content_type image_file = Some t
                       /\ startswith t "image/" = false).
Proof.
  rewrite process_uploaded_image_cases.
  destruct ingest_errors_distinct as (Hi & _ & He).
  destruct (Z.gtb_spec (len (file_content image_file)) (10 * 1024 * 1024)) as [Hgt|Hle].
  - split; [intros H; exfalso; apply Hi; congruence | intros [H _]; lia].
  - destruct (content_type image_file) as [t|] eqn:Hct; simpl.
    + destruct (startswith t "image/") eqn:Hpre; simpl.
      * split.
        -- destruct (len (file_content image_file) =? 0)%Z; intros H;
             [exfalso; apply He; congruence | discriminate H].
        -- intros [_ [H | (t' & Ht' & Hf)]]; [discriminate H|].
           injection Ht' as <-. rewrite Hpre in Hf. discriminate Hf.
      * split; [intros _; split; [assumption | right; exists t; auto] | reflexivity].
    + split; [intros _; split; [assumption | left; reflexivity] | reflexivity].
Qed.

(** C4, as the claim states it, fails: an empty payload declared as
    [text/plain] is refused for its type, not for being empty. *)
Lemma C4_counterexample :
  ~ (len (file_content empty_text_upload) = 0%Z ->
     process_uploaded_image empty_text_upload = Raised EmptyPayload).
Proof.
  intros H. specialize (H eq_refl). apply ingest_errors_distinct.
  change (process_uploaded_image empty_text_upload) with (@Raised string InvalidMediaType) in H.
  congruence.
Qed.

Lemma existsb_filter {A : Type} (f : A -> bool) (l : list A) :
  existsb f l = match filter f l with [] => false | _ :: _ => true end.
Proof.
  induction l as [|x l IH]; [reflexivity|]. simpl.
  destruct (f x); [reflexivity | exact IH].
Qed.

(** The handler on a form that parsed to exactly one part named [file]. *)
Lemma do_POST_body_one_file (content_type : string)
    (parts : list UploadImageApi.FieldItem) (file_item : UploadImageApi.FieldItem) :
  str_in "multipart/form-data" content_type = true ->
  filter (UploadImageApi.named "file") parts = [file_item] ->
  UploadImageApi.do_POST_body content_type (Returned (Some parts)) =
    if negb (truthy (UploadImageApi.filename file_item)) then
      Raised (Exception "No file selected")
    else
      match UploadImageApi.file file_item with
      | None => Raised (Exception "'NoneType' object has no attribute 'read'")
      | Some image_data =>
          if (len image_data =? 0)%Z then
            Raised (Exception UploadImageApi.empty_file_error)
          else if (len image_data >? 10 * 1024 * 1024)%Z then
            Raised (Exception UploadImageApi.too_large_error)
          else
            Returned
              [ ("success", UploadImageApi.JBool true);
                ("message",
                 UploadImageApi.JStr "✅ Image uploaded successfully! Ready for analysis.");
                ("image_data",
                 UploadImageApi.JStr (decode_utf8 (b64encode image_data)));
                ("filename",
                 UploadImageApi.JStr (match UploadImageApi.filename file_item with
                                      | Some n => n
                                      | None => ""
                                      end)) ]
      end.
Proof.
  intros Hct Hone. unfold UploadImageApi.do_POST_body.
  rewrite Hct. cbn [negb]. unfold UploadImageApi.form_contains, UploadImageApi.form_getitem.
  rewrite existsb_filter, Hone. reflexivity.
Qed.

(** C4 (amended). For every payload of length 0, [process_uploaded_image]
    (and with it the endpoint [upload_image]) fails with [EmptyPayload] when
    the declared content type begins with [image/], and with
    [InvalidMediaType] when the type is absent or does not; the handler of
    [api/upload-image.py], which checks no type, answers with its empty-file
    error every request whose Content-Type header contains
    [multipart/form-data] and whose form parses to exactly one part named
    [file], with a file name and a file of 0 bytes. *)
Theorem C4_empty_payload :
  (forall image_file : UploadFile,
     len (file_content image_file) = 0%Z ->
     process_uploaded_image image_file =
       Raised (if declares_image (content_type image_file)
               then EmptyPayload else InvalidMediaType)
     /\ upload_image image_file = Raised (if declares_image (content_type image_file)
                                         then EmptyPayload else InvalidMediaType))
  /\ (forall (content_type : string) parts file_item image_data,
        str_in "multipart/form-data" content_type = true ->
        filter (UploadImageApi.named "file") parts = [file_item] ->
        truthy (UploadImageApi.filename file_item) = true ->
        UploadImageApi.file file_item = Some image_data ->
        len image_data = 0%Z ->
        UploadImageApi.do_POST_body content_type (Returned (Some parts))
          = Raised (Exception UploadImageApi.empty_file_error)
        /\ UploadImageApi.do_POST content_type (Returned (Some parts))
           = [ UploadImageApi.send_response 200;
               UploadImageApi.send_header "Content-type" "application/json";
               UploadImageApi.send_header "Access-Control-Allow-Origin" "*";
               UploadImageApi.send_header "Access-Control-Allow-Methods" "GET, POST, OPTIONS";
               UploadImageApi.send_header "Access-Control-Allow-Headers" "*";
               UploadImageApi.end_headers;
               UploadImageApi.send_response 400;
               UploadImageApi.send_header "Content-type" "application/json";
               UploadImageApi.send_header "Access-Control-Allow-Origin" "*";
               UploadImageApi.end_headers;
               UploadImageApi.write_json
                 [ ("error", UploadImageApi.JStr "📁 The uploaded file is empty") ] ]).
Proof.
  split.
  - intros image_file Hlen.
    assert (Hp : process_uploaded_image image_file =
                 Raised (if declares_image (content_type image_file)
                         then EmptyPayload else InvalidMediaType)).
    { rewrite process_uploaded_image_cases, Hlen. simpl.
      destruct (declares_image (content_type image_file)); reflexivity. }
    split; [exact Hp|].
    unfold upload_image. rewrite Hp.
    destruct (declares_image (content_type image_file)); reflexivity.
  - intros ct parts file_item image_data Hct Hone Hname Hfile Hlen.
    assert (Hb : UploadImageApi.do_POST_body ct (Returned (Some parts))
                 = Raised (Exception UploadImageApi.empty_file_error)).
    { rewrite (do_POST_body_one_file ct parts file_item Hct Hone), Hname, Hfile, Hlen.
      reflexivity. }
    split; [exact Hb|].
    unfold UploadImageApi.do_POST. rewrite Hb. reflexivity.
Qed.

(** C4 (amended) on an empty PNG upload, an empty text upload and an empty
    file sent to the serverless handler. *)
Lemma C4_empty_payload_witness :
  (process_uploaded_image empty_png_upload = Raised EmptyPayload
   /\ process_uploaded_image empty_text_upload = Raised InvalidMediaType)
  /\ UploadImageApi.do_POST_body "multipart/form-data; boundary=x"
       (Returned (Some [empty_form_file]))
     = Raised (Exception UploadImageApi.empty_file_error).
Proof.
  split; [split|].
  - exact (proj1 (proj1 C4_empty_payload empty_png_upload eq_refl)).
  - exact (proj1 (proj1 C4_empty_payload empty_text_upload eq_refl)).
  - exact (proj1 (proj2 C4_empty_payload "multipart/form-data; boundary=x"
                    [empty_form_file] empty_form_file []
                    eq_refl eq_refl eq_refl eq_refl eq_refl)).
Defined.

(** ** Base64: decoding undoes encoding *)

Section Base64.

Local Open Scope N_scope.

(** Linear arithmetic with division and remainder by constants. *)
Local Ltac euclid := zify; Z.to_euclidean_division_equations; lia.

Lemma b64_index_char (n : N) : n < 64 -> b64_index (b64_char n) = Some n.
Proof.
  intros Hn. destruct n as [|p]; [reflexivity|].
  repeat (destruct p as [p|p|]; try reflexivity; try (exfalso; lia)).
Qed.

Lemma b64_index_pad : b64_index b64_pad = None.
Proof. reflexivity. Qed.

Lemma byte_of_to_N (b : byte) : byte_of_N (Byte.to_N b) = b.
Proof. unfold byte_of_N. rewrite Byte.of_to_N. reflexivity. Qed.

Lemma byte_to_N_lt (b : byte) : Byte.to_N b < 256.
Proof. pose proof (Byte.to_N_bounded b). lia. Qed.

(** The arithmetic of a group: three bytes [x], [y], [z] are cut into four
    6-bit numbers and put together again. *)
Lemma sextets_bounded (x y z : N) :
  x < 256 -> y < 256 -> z < 256 ->
  x / 4 < 64 /\ x mod 4 * 16 + y / 16 < 64
  /\ y mod 16 * 4 + z / 64 < 64 /\ z mod 64 < 64.
Proof. intros Hx Hy Hz. repeat split; euclid. Qed.

Lemma bytes_back (x y z : N) :
  x < 256 -> y < 256 -> z < 256 ->
  x / 4 * 4 + (x mod 4 * 16 + y / 16) / 16 = x
  /\ (x mod 4 * 16 + y / 16) mod 16 * 16 + (y mod 16 * 4 + z / 64) / 4 = y
  /\ (y mod 16 * 4 + z / 64) mod 4 * 64 + z mod 64 = z.
Proof. intros Hx Hy Hz. repeat split; euclid. Qed.

Lemma tail_bytes_back (x y : N) :
  x < 256 -> y < 256 ->
  (x mod 4 * 16 < 64 /\ x / 4 * 4 + x mod 4 * 16 / 16 = x)
  /\ (y mod 16 * 4 < 64
      /\ (x mod 4 * 16 + y / 16) mod 16 * 16 + y mod 16 * 4 / 4 = y).
Proof. intros Hx Hy. repeat split; euclid. Qed.

(** Lists, three elements at a time. *)
Lemma list_ind3 {A : Type} (P : list A -> Prop) :
  P [] -> (forall a, P [a]) -> (forall a b, P [a; b]) ->
  (forall a b c rest, P rest -> P (a :: b :: c :: rest)) ->
  forall l, P l.
Proof.
  intros H0 H1 H2 H3.
  assert (H : forall l, P l /\ (forall a, P (a :: l)) /\ (forall a b, P (a :: b :: l))).
  { induction l as [|x l (IH0 & IH1 & IH2)].
    - repeat split; auto.
    - repeat split; auto. }
  intros l. apply H.
Qed.

(** The decoder on a full group, and on the two shapes of a last group. *)
Lemma b64decode_group c0 c1 c2 c3 rest i0 i1 i2 i3 :
  b64_index c0 = Some i0 -> b64_index c1 = Some i1 ->
  b64_index c2 = Some i2 -> b64_index c3 = Some i3 ->
  b64decode (c0 :: c1 :: c2 :: c3 :: rest) =
    match b64decode rest with
    | Some tl =>
        Some (byte_of_N (i0 * 4 + i1 / 16) :: byte_of_N (i1 mod 16 * 16 + i2 / 4)
                :: byte_of_N (i2 mod 4 * 64 + i3) :: tl)
    | None => None
    end.
Proof.
  intros E0 E1 E2 E3. cbn [b64decode]. rewrite E0, E1, E2, E3. reflexivity.
Qed.

Lemma b64decode_two c0 c1 c2 i0 i1 i2 :
  b64_index c0 = Some i0 -> b64_index c1 = Some i1 -> b64_index c2 = Some i2 ->
  b64decode [c0; c1; c2; b64_pad] =
    Some [byte_of_N (i0 * 4 + i1 / 16); byte_of_N (i1 mod 16 * 16 + i2 / 4)].
Proof.
  intros E0 E1 E2. cbn [b64decode]. rewrite E0, E1, E2, b64_index_pad. reflexivity.
Qed.

Lemma b64decode_one c0 c1 i0 i1 :
  b64_index c0 = Some i0 -> b64_index c1 = Some i1 ->
  b64decode [c0; c1; b64_pad; b64_pad] = Some [byte_of_N (i0 * 4 + i1 / 16)].
Proof.
  intros E0 E1. cbn [b64decode]. rewrite E0, E1, b64_index_pad. reflexivity.
Qed.

(** Round trip: decoding the encoding of [data] gives [data] back. *)
Lemma b64decode_b64encode (data : list byte) :
  b64decode (b64encode data) = Some data.
Proof.
  induction data as [|a|a b|a b c rest IH] using list_ind3.
  - reflexivity.
  - pose proof (byte_to_N_lt a) as Ha.
    destruct (tail_bytes_back (Byte.to_N a) 0 Ha eq_refl) as ((B1 & R1) & _).
    destruct (sextets_bounded (Byte.to_N a) 0 0 Ha eq_refl eq_refl) as (B0 & _).
    cbn [b64encode].
    rewrite (b64decode_one _ _ _ _ (b64_index_char _ B0) (b64_index_char _ B1)).
    rewrite R1, byte_of_to_N. reflexivity.
  - pose proof (byte_to_N_lt a) as Ha. pose proof (byte_to_N_lt b) as Hb.
    destruct (tail_bytes_back (Byte.to_N a) (Byte.to_N b) Ha Hb) as (_ & B2 & R2).
    destruct (sextets_bounded (Byte.to_N a) (Byte.to_N b) 0 Ha Hb eq_refl)
      as (B0 & B1 & _).
    destruct (bytes_back (Byte.to_N a) (Byte.to_N b) 0 Ha Hb eq_refl) as (R1 & _).
    cbn [b64encode].
    rewrite (b64decode_two _ _ _ _ _ _ (b64_index_char _ B0) (b64_index_char _ B1)
               (b64_index_char _ B2)).
    rewrite R1, R2, !byte_of_to_N. reflexivity.
  - pose proof (byte_to_N_lt a) as Ha. pose proof (byte_to_N_lt b) as Hb.
    pose proof (byte_to_N_lt c) as Hc.
    destruct (sextets_bounded _ _ _ Ha Hb Hc) as (B0 & B1 & B2 & B3).
    destruct (bytes_back _ _ _ Ha Hb Hc) as (R1 & R2 & R3).
    cbn [b64encode].
    rewrite (b64decode_group _ _ _ _ _ _ _ _ _ (b64_index_char _ B0)
               (b64_index_char _ B1) (b64_index_char _ B2) (b64_index_char _ B3)).
    rewrite IH, R1, R2, R3, !byte_of_to_N. reflexivity.
Qed.

End Base64.

(** C3. For every byte sequence of length in (0, 10*1024*1024] whose
    declared content type begins with [image/], [process_uploaded_image]
    succeeds, and base64-decoding the text it returns gives the original
    bytes back. *)
Theorem C3_ingest_round_trip (image_file : UploadFile) (t : string) :
  (0 < len (file_content image_file) <= 10 * 1024 * 1024)%Z ->
  content_type image_file = Some t ->
  startswith t "image/" = true ->
  exists encoded : string,
    process_uploaded_image image_file = Returned encoded
    /\ b64decode (encode_utf8 encoded) = Some (file_content image_file).
Proof.
  intros [Hpos Hmax] Hct Himg.
  exists (decode_utf8 (b64encode (file_content image_file))). split.
  - rewrite process_uploaded_image_cases, Hct. simpl declares_image. rewrite Himg.
    destruct (Z.gtb_spec (len (file_content image_file)) (10 * 1024 * 1024)); [lia|].
    destruct (Z.eqb_spec (len (file_content image_file)) 0); [lia|]. reflexivity.
  - unfold encode_utf8, decode_utf8.
    rewrite list_byte_of_string_of_list_byte. apply b64decode_b64encode.
Qed.

(** C3 on a four-byte PNG upload. *)
Lemma C3_ingest_round_trip_witness :
  exists encoded : string,
    process_uploaded_image png_upload = Returned encoded
    /\ b64decode (encode_utf8 encoded) = Some (file_content png_upload).
Proof.
  apply (C3_ingest_round_trip png_upload "image/png").
  - vm_compute. split; [reflexivity | discriminate].
  - reflexivity.
  - reflexivity.
Defined.

(** ** Error Classifier *)

Section Classifier.

Ltac each_char c := destruct c as [[] [] [] [] [] [] [] []].

Lemma lower_char_idempotent (c : ascii) : lower_char (lower_char c) = lower_char c.
Proof. each_char c; reflexivity. Qed.

Lemma lower_char_digit (b c : ascii) :
  is_digit c = true -> lower_char b = c -> b = c.
Proof. intros Hd <-. each_char b; first [reflexivity | discriminate Hd]. Qed.

Lemma digit_lower_char (c : ascii) : is_digit c = true -> lower_char c = c.
Proof. intros Hd. each_char c; first [reflexivity | discriminate Hd]. Qed.

Lemma same_letter_digit (a b : ascii) :
  is_digit a = true -> same_letter a b = if ascii_dec a b then true else false.
Proof.
  intros Hd. unfold same_letter. rewrite (digit_lower_char a Hd).
  destruct (ascii_dec a b) as [<-|Hne].
  - rewrite (digit_lower_char a Hd). apply Ascii.eqb_refl.
  - apply Ascii.eqb_neq. intros H. apply Hne. symmetry.
    apply (lower_char_digit b a Hd). symmetry. exact H.
Qed.

Lemma same_letter_lower (a b : ascii) :
  lower_char a = a -> same_letter a b = if ascii_dec a (lower_char b) then true else false.
Proof.
  intros Ha. unfold same_letter. rewrite Ha.
  destruct (ascii_dec a (lower_char b)) as [<-|Hne].
  - apply Ascii.eqb_refl.
  - apply Ascii.eqb_neq. exact Hne.
Qed.

(** The test of the code on the lowered text is the test without case. *)
Lemma prefix_lower (p s : string) :
  lower p = p -> String.prefix p (lower s) = ci_prefix p s.
Proof.
  revert s. induction p as [|a p IH]; intros s Hp.
  - destruct s; reflexivity.
  - simpl in Hp. injection Hp as Ha Hp'. destruct s as [|b s]; [reflexivity|].
    simpl. rewrite (same_letter_lower a b Ha).
    destruct (ascii_dec a (lower_char b)); [apply IH; exact Hp' | reflexivity].
Qed.

Lemma str_in_lower (p s : string) :
  lower p = p -> str_in p (lower s) = ci_in p s.
Proof.
  intros Hp. induction s as [|b s IH].
  - cbn [lower str_in ci_in]. rewrite <- (prefix_lower p EmptyString Hp). reflexivity.
  - cbn [lower str_in ci_in]. rewrite IH.
    rewrite <- (prefix_lower p (String b s) Hp). reflexivity.
Qed.

(** A run of digits has no case: the test on the raw text is the test
    without case. *)
Lemma prefix_digits (p s : string) :
  all_digits p = true -> String.prefix p s = ci_prefix p s.
Proof.
  revert s. induction p as [|a p IH]; intros s Hp.
  - destruct s; reflexivity.
  - simpl in Hp. apply andb_true_iff in Hp as [Ha Hp].
    destruct s as [|b s]; [reflexivity|].
    simpl. rewrite (same_letter_digit a b Ha).
    destruct (ascii_dec a b); [apply IH; exact Hp | reflexivity].
Qed.

Lemma str_in_digits (p s : string) :
  all_digits p = true -> str_in p s = ci_in p s.
Proof.
  intros Hp. induction s as [|b s IH].
  - cbn [str_in ci_in]. rewrite (prefix_digits p EmptyString Hp). reflexivity.
  - cbn [str_in ci_in]. rewrite IH, (prefix_digits p (String b s) Hp). reflexivity.
Qed.

(** Lowering the text changes no test without case. *)
Lemma ci_prefix_lower (p s : string) : ci_prefix p (lower s) = ci_prefix p s.
Proof.
  revert s. induction p as [|a p IH]; intros [|b s]; try reflexivity.
  simpl. unfold same_letter. rewrite lower_char_idempotent, IH. reflexivity.
Qed.

Lemma ci_in_lower (p s : string) : ci_in p (lower s) = ci_in p s.
Proof.
  induction s as [|b s IH].
  - reflexivity.
  - cbn [lower ci_in]. rewrite IH.
    change (String (lower_char b) (lower s)) with (lower (String b s)).
    rewrite ci_prefix_lower. reflexivity.
Qed.

Lemma matches_lower (p : pattern) (s : string) : matches p (lower s) = matches p s.
Proof.
  destruct p as [words|words]; simpl; induction words as [|w words IH]; simpl;
    try reflexivity; rewrite ci_in_lower, IH; reflexivity.
Qed.

Lemma first_match_lower (rules : list (pattern * string)) (s : string) :
  first_match rules (lower s) = first_match rules s.
Proof.
  induction rules as [|[p m] rules IH]; simpl; [reflexivity|].
  rewrite matches_lower, IH. reflexivity.
Qed.

(** The code is the first-match reading of the rules. *)
Lemma get_user_friendly_error_classify (s : string) :
  get_user_friendly_error s = classify s.
Proof.
  unfold get_user_friendly_error, classify.
  rewrite !str_in_lower by reflexivity.
  rewrite !str_in_digits by reflexivity.
  cbn [classifier_rules first_match matches existsb forallb].
  rewrite !orb_false_r, !andb_true_r, !orb_assoc. reflexivity.
Qed.

End Classifier.

Lemma get_user_friendly_error_classify_lowered (str_lower : string -> string) (s : string) :
  PyUnicode.get_user_friendly_error str_lower s = classify_lowered str_lower s.
Proof.
  unfold PyUnicode.get_user_friendly_error, classify_lowered.
  cbn [classifier_rules first_match_by matches_by existsb forallb].
  repeat match goal with
         | |- context [occurs_lowered ?L ?w ?t] =>
             first [ change (occurs_lowered L w t) with (str_in w t)
                   | change (occurs_lowered L w t) with (str_in w (L t)) ]
         end.
  rewrite !orb_false_r, !andb_true_r, !orb_assoc. reflexivity.
Qed.

(** C7. [get_user_friendly_error] is total and, whatever the case mapping
    [str.lower] of the runtime, is the first-match reading of the rules in
    their order of priority, a word being sought in the lowered text and a
    status code in the text as it is: 503/overloaded/unavailable, then
    401/unauthorized, then 429/rate limit, then timeout, then
    network/connection, then file and size, then invalid and image, else the
    generic message.  Every text with "503" gives the busy-retry message;
    every text with "429" and none of the patterns of higher priority gives
    the throttle message; every text that no pattern matches gives the
    generic message; two texts with the same lowered form and the same
    status codes are classified alike.  On ASCII text, where [str.lower]
    folds the letters A to Z, the test is the comparison of the characters
    without case, and texts that differ by case only are classified
    alike. *)
Theorem C7_classifier_first_match (str_lower : string -> string) :
  (forall s,
     PyUnicode.get_user_friendly_error str_lower s = classify_lowered str_lower s)
  /\ (forall s, str_in "503" s = true ->
        PyUnicode.get_user_friendly_error str_lower s = busy_retry_message)
  /\ (forall s, str_in "429" s = true ->
        matches_by (occurs_lowered str_lower)
          (AnyOf ["503"; "overloaded"; "unavailable"]) s = false ->
        matches_by (occurs_lowered str_lower) (AnyOf ["401"; "unauthorized"]) s = false ->
        PyUnicode.get_user_friendly_error str_lower s = throttle_message)
  /\ (forall s,
        forallb (fun rule => negb (matches_by (occurs_lowered str_lower) (fst rule) s))
          classifier_rules = true ->
        PyUnicode.get_user_friendly_error str_lower s = generic_message)
  /\ (forall s1 s2,
        str_lower s1 = str_lower s2 ->
        (forall code, In code status_codes -> str_in code s1 = str_in code s2) ->
        PyUnicode.get_user_friendly_error str_lower s1
        = PyUnicode.get_user_friendly_error str_lower s2)
  /\ ((forall s, is_ascii_text s = true -> str_lower s = lower s) ->
      forall s, is_ascii_text s = true ->
        PyUnicode.get_user_friendly_error str_lower s = classify s
        /\ forall s', is_ascii_text s' = true -> lower s = lower s' ->
             PyUnicode.get_user_friendly_error str_lower s
             = PyUnicode.get_user_friendly_error str_lower s').
Proof.
  split; [exact (get_user_friendly_error_classify_lowered str_lower)|].
  split; [|split; [|split; [|split]]].
  - intros s H. unfold PyUnicode.get_user_friendly_error. rewrite H. reflexivity.
  - intros s H429 H1 H2. rewrite get_user_friendly_error_classify_lowered.
    unfold classify_lowered. cbn [classifier_rules first_match_by]. rewrite H1, H2.
    cbn [matches_by existsb].
    change (occurs_lowered str_lower "429" s) with (str_in "429" s).
    rewrite H429. reflexivity.
  - intros s H. rewrite get_user_friendly_error_classify_lowered. unfold classify_lowered.
    induction classifier_rules as [|[p m] rules IH]; [reflexivity|].
    cbn [forallb fst] in H. apply andb_true_iff in H as [Hp Hrest].
    cbn [first_match_by]. apply negb_true_iff in Hp. rewrite Hp. apply IH. exact Hrest.
  - intros s1 s2 Hlower Hcodes. unfold PyUnicode.get_user_friendly_error.
    rewrite Hlower.
    rewrite (Hcodes "503"), (Hcodes "401"), (Hcodes "429");
      [reflexivity | | | ]; cbn [In status_codes]; auto.
  - intros Hascii.
    assert (Hserver : forall s, is_ascii_text s = true ->
              PyUnicode.get_user_friendly_error str_lower s = get_user_friendly_error s).
    { intros s Hs. unfold PyUnicode.get_user_friendly_error, get_user_friendly_error.
      rewrite (Hascii s Hs). reflexivity. }
    intros s Hs. split.
    + rewrite (Hserver s Hs). apply get_user_friendly_error_classify.
    + intros s' Hs' Hcase. rewrite (Hserver s Hs), (Hserver s' Hs').
      rewrite !get_user_friendly_error_classify. unfold classify.
      rewrite <- (first_match_lower _ s), <- (first_match_lower _ s'), Hcase.
      reflexivity.
Qed.

(** C7 with the folding of the ASCII letters for [str.lower], on four
    error texts. *)
Lemma C7_classifier_first_match_witness :
  PyUnicode.get_user_friendly_error lower "upstream returned 503" = busy_retry_message
  /\ PyUnicode.get_user_friendly_error lower "HTTP 429 Too Many Requests"
     = throttle_message
  /\ PyUnicode.get_user_friendly_error lower "boom" = generic_message
  /\ PyUnicode.get_user_friendly_error lower "Model OVERLOADED"
     = PyUnicode.get_user_friendly_error lower "model overloaded".
Proof.
  destruct (C7_classifier_first_match lower) as (_ & H503 & H429 & Hnone & _ & Hascii).
  split; [|split; [|split]].
  - apply H503. reflexivity.
  - apply H429; reflexivity.
  - apply Hnone. reflexivity.
  - apply (Hascii (fun s _ => eq_refl) "Model OVERLOADED" eq_refl); reflexivity.
Defined.

(** The classifier of [server.py] as the other functions use it here is the
    one above with the folding of the ASCII letters. *)
Lemma get_user_friendly_error_ascii_case (s : string) :
  get_user_friendly_error s = PyUnicode.get_user_friendly_error lower s.
Proof. reflexivity. Qed.

(** ** Fallback Executor *)

Section Executor.

Context {World : Type}.
Variable send_message : string -> UserMessage -> World -> (string + string) * World.
Variable strftime_now : World -> string.

Implicit Types s : St World.

(** *** The shared loop *)

Section Loop.

Context {A B : Type}.
Variable attempt : string -> M World A.
Variable finish : A -> B.
Variable exhausted : M World B.
Hypothesis attempt_calls : one_call_each attempt.

Lemma keys_fail_calls keys s s' last_error :
  keys_fail attempt keys s s' last_error ->
  exists calls,
    gateway_calls s' = (gateway_calls s ++ calls)%list
    /\ map call_api_key calls = keys.
Proof.
  induction 1 as [s|pre last s s1 s2 before e _ (calls & Hcalls & Hkeys) Hfail].
  - exists []. split; [symmetry; apply app_nil_r | reflexivity].
  - destruct (attempt_calls _ _ _ _ Hfail) as (call & Hcall & Hkey).
    exists (calls ++ [call])%list. split.
    + rewrite Hcall, Hcalls, <- app_assoc. reflexivity.
    + rewrite map_app, Hkeys. simpl. rewrite Hkey. reflexivity.
Qed.

(** Failing keys that are not the last of the chain are passed over. *)
Lemma fallback_loop_skips n i pre remaining s s1 last_error :
  keys_fail attempt pre s s1 last_error ->
  (i + Z.of_nat (List.length pre) <= n - 1)%Z ->
  fallback_loop attempt finish exhausted n i (pre ++ remaining) s
  = fallback_loop attempt finish exhausted n
      (i + Z.of_nat (List.length pre))%Z remaining s1.
Proof.
  intros Hfail. revert remaining.
  induction Hfail as [s|pre last s s1 s2 before e _ IH Hfail]; intros remaining Hi.
  - cbn [app List.length]. rewrite Z.add_0_r. reflexivity.
  - rewrite length_app in Hi |- *. cbn [List.length] in Hi |- *.
    rewrite <- app_assoc. cbn [app]. rewrite IH by lia.
    cbn [fallback_loop]. rewrite Hfail.
    destruct (Z.eqb_spec (i + Z.of_nat (List.length pre)) (n - 1)) as [Heq|Hne]; [lia|].
    f_equal. lia.
Qed.

(** Keys 1..k-1 fail and key k succeeds: k calls, the answer of key k. *)
Lemma fallback_loop_first_success pre api_key post s s1 s2 a last_error :
  keys_fail attempt pre s s1 last_error ->
  attempt api_key s1 = (Returned a, s2) ->
  fallback_loop attempt finish exhausted
    (Z.of_nat (List.length (pre ++ api_key :: post))) 0 (pre ++ api_key :: post) s
  = (Returned (finish a), s2)
  /\ exists calls,
       gateway_calls s2 = (gateway_calls s ++ calls)%list
       /\ map call_api_key calls = (pre ++ [api_key])%list.
Proof.
  intros Hfail Hok. split.
  - rewrite (fallback_loop_skips _ 0 pre (api_key :: post) s s1 _ Hfail)
      by (rewrite length_app; cbn [List.length]; lia).
    cbn [fallback_loop]. rewrite Hok. reflexivity.
  - destruct (keys_fail_calls _ _ _ _ Hfail) as (calls & Hcalls & Hkeys).
    destruct (attempt_calls _ _ _ _ Hok) as (call & Hcall & Hkey).
    exists (calls ++ [call])%list. split.
    + rewrite Hcall, Hcalls, <- app_assoc. reflexivity.
    + rewrite map_app, Hkeys. simpl. rewrite Hkey. reflexivity.
Qed.

(** All N keys fail: N calls, and the classified error of the last key
    when there is one. *)
Hypothesis exhausted_keeps_state : forall s, snd (exhausted s) = s.

Lemma fallback_loop_all_fail keys s s' last_error :
  keys_fail attempt keys s s' last_error ->
  exists r,
    fallback_loop attempt finish exhausted (Z.of_nat (List.length keys)) 0 keys s
    = (r, s')
    /\ (exists calls,
          gateway_calls s' = (gateway_calls s ++ calls)%list
          /\ map call_api_key calls = keys)
    /\ forall e, last_error = Some e ->
                 r = Raised (HTTPException 503 (get_user_friendly_error (str_of_exn e))).
Proof.
  intros Hfail. pose proof (keys_fail_calls _ _ _ _ Hfail) as Hcalls.
  destruct Hfail as [s|pre last s s1 s2 before e Hpre Hlast].
  - exists (fst (exhausted s)). split; [|split; [exact Hcalls | discriminate]].
    cbn [fallback_loop]. rewrite (surjective_pairing (exhausted s)) at 1.
    rewrite exhausted_keeps_state. reflexivity.
  - eexists. split; [|split; [exact Hcalls|]].
    + rewrite (fallback_loop_skips _ 0 pre [last] s s1 _ Hpre)
        by (rewrite length_app; cbn [List.length]; lia).
      cbn [fallback_loop]. rewrite Hlast.
      rewrite length_app. cbn [List.length].
      destruct (Z.eqb_spec (0 + Z.of_nat (List.length pre))
                  (Z.of_nat (List.length pre + 1) - 1)); [reflexivity | lia].
    + intros e' He'. injection He' as <-. reflexivity.
Qed.

(** A chain that is not empty and that the loop visits to its end gives
    a text or an error, never the outcome of running out of keys. *)
Lemma fallback_loop_decides n i keys s :
  keys <> [] ->
  (i + Z.of_nat (List.length keys) = n)%Z ->
  (exists a s', fallback_loop attempt finish exhausted n i keys s = (Returned (finish a), s'))
  \/ (exists e s', fallback_loop attempt finish exhausted n i keys s = (Raised e, s')).
Proof.
  revert i s. induction keys as [|api_key rest IH]; intros i s Hne Hn; [congruence|].
  cbn [fallback_loop]. destruct (attempt api_key s) as [[a|e] s'] eqn:Hattempt.
  - left. eauto.
  - destruct (Z.eqb_spec i (n - 1)) as [Heq|Hlast].
    + right. eauto.
    + apply IH.
      * destruct rest; [cbn [List.length] in Hn; lia | discriminate].
      * cbn [List.length] in Hn. lia.
Qed.

End Loop.

(** *** The loops of the code are instances of the shared loop *)

Lemma analyze_with_gemini_api_one_call prompt chart_image_base64 :
  one_call_each
    (fun api_key =>
       analyze_with_gemini_api World send_message api_key prompt chart_image_base64).
Proof.
  intros api_key s r s' H. unfold analyze_with_gemini_api, try_except in H.
  match type of H with
  | context [send_message ?k ?m ?w] => destruct (send_message k m w) as [[answer|msg] w']
  end; injection H as <- <-; eexists; split; reflexivity.
Qed.

Lemma try_api_keys_loop GEMINI_API_KEYS i keys prompt chart_image_base64 s :
  try_api_keys World send_message GEMINI_API_KEYS i keys prompt chart_image_base64 s
  = fallback_loop
      (fun api_key =>
         analyze_with_gemini_api World send_message api_key prompt chart_image_base64)
      Some (fun s0 => (Returned None, s0))
      (Z.of_nat (List.length GEMINI_API_KEYS)) i keys s.
Proof.
  revert i s. induction keys as [|api_key rest IH]; intros i s; [reflexivity|].
  cbn [try_api_keys fallback_loop]. unfold try_except at 1. cbn [bind ret Monad_M].
  destruct (analyze_with_gemini_api World send_message api_key prompt
              chart_image_base64 s) as [[answer|e] s'].
  - reflexivity.
  - destruct (_ =? _)%Z; [reflexivity | apply IH].
Qed.

Variable fundamental_prompt sentiment_prompt : string -> string -> string.
Variable technical_prompt recommendations_prompt : string -> string -> string.
Variable legacy_prompt : string -> string -> string -> string.
Variable structured_prompt : string -> string -> string.

Local Abbreviation section_attempt' :=
  (section_attempt World send_message fundamental_prompt sentiment_prompt
     technical_prompt recommendations_prompt).
Local Abbreviation section_task' keys :=
  (section_task World send_message keys fundamental_prompt sentiment_prompt
     technical_prompt recommendations_prompt).
Local Abbreviation fallback_attempt' :=
  (fallback_attempt World send_message strftime_now legacy_prompt structured_prompt).
Local Abbreviation analyze_with_fallback' keys :=
  (analyze_with_fallback World send_message strftime_now keys
     legacy_prompt structured_prompt).

Lemma section_task_loop keys sec symbol exchange image s :
  section_task' keys sec symbol exchange image s
  = fallback_loop (section_attempt' sec symbol exchange image)
      Some (fun s0 => (Returned None, s0))
      (Z.of_nat (List.length keys)) 0 keys s.
Proof. destruct sec; apply try_api_keys_loop. Qed.

Lemma section_attempt_one_call sec symbol exchange image :
  one_call_each (section_attempt' sec symbol exchange image).
Proof. apply analyze_with_gemini_api_one_call. Qed.

Lemma fallback_attempt_one_call symbol exchange image use_legacy_prompt :
  one_call_each (fallback_attempt' symbol exchange image use_legacy_prompt).
Proof.
  intros api_key s r s' H. unfold fallback_attempt in H.
  eapply analyze_with_gemini_api_one_call. exact H.
Qed.

Lemma analyze_with_fallback_loop_shared keys i rest symbol exchange image legacy s :
  analyze_with_fallback_loop World send_message strftime_now keys
    legacy_prompt structured_prompt i rest symbol exchange image legacy s
  = fallback_loop (fallback_attempt' symbol exchange image legacy)
      (fun answer => answer)
      (raise (HTTPException 503 all_busy_detail))
      (Z.of_nat (List.length keys)) i rest s.
Proof.
  revert i s. induction rest as [|api_key rest IH]; intros i s; [reflexivity|].
  cbn [analyze_with_fallback_loop fallback_loop]. unfold try_except at 1.
  unfold fallback_attempt.
  destruct legacy; cbn [bind ret Monad_M now];
    match goal with
    | |- context [analyze_with_gemini_api ?W ?f ?k ?p ?img ?st] =>
        destruct (analyze_with_gemini_api W f k p img st) as [[answer|e] s']
    end;
    try reflexivity;
    destruct (_ =? _)%Z; try reflexivity;
    destruct (_ || _); apply IH.
Qed.

(** C1. With any chain of keys, in any state of the external service:
    if the attempts with keys 1..k-1 fail and the attempt with key k
    succeeds, the executor returns the answer of key k, and the gateway
    calls it made are the calls with keys 1..k, in order, one each; if the
    attempts with all N keys fail, the gateway calls are the calls with
    the N keys, in order, one each, and the executor raises the 503 error
    whose detail is the classification of the last error observed.  This
    holds for the four section functions and for [analyze_with_fallback]. *)
Theorem C1_fallback_tries_keys_in_order :
  (forall sec symbol exchange image pre api_key post s s1 s2 answer last_error,
     keys_fail (section_attempt' sec symbol exchange image) pre s s1 last_error ->
     section_attempt' sec symbol exchange image api_key s1 = (Returned answer, s2) ->
     section_task' (pre ++ api_key :: post) sec symbol exchange image s
       = (Returned (Some answer), s2)
     /\ exists calls,
          gateway_calls s2 = (gateway_calls s ++ calls)%list
          /\ map call_api_key calls = (pre ++ [api_key])%list)
  /\ (forall sec symbol exchange image keys s s' last_error,
        keys_fail (section_attempt' sec symbol exchange image) keys s s' last_error ->
        exists r,
          section_task' keys sec symbol exchange image s = (r, s')
          /\ (exists calls,
                gateway_calls s' = (gateway_calls s ++ calls)%list
                /\ map call_api_key calls = keys)
          /\ forall e, last_error = Some e ->
               r = Raised (HTTPException 503 (get_user_friendly_error (str_of_exn e))))
  /\ (forall symbol exchange image legacy pre api_key post s s1 s2 answer last_error,
        keys_fail (fallback_attempt' symbol exchange image legacy) pre s s1 last_error ->
        fallback_attempt' symbol exchange image legacy api_key s1 = (Returned answer, s2) ->
        analyze_with_fallback' (pre ++ api_key :: post) symbol exchange image legacy s
          = (Returned answer, s2)
        /\ exists calls,
             gateway_calls s2 = (gateway_calls s ++ calls)%list
             /\ map call_api_key calls = (pre ++ [api_key])%list)
  /\ (forall symbol exchange image legacy keys s s' last_error,
        keys_fail (fallback_attempt' symbol exchange image legacy) keys s s' last_error ->
        exists r,
          analyze_with_fallback' keys symbol exchange image legacy s = (r, s')
          /\ (exists calls,
                gateway_calls s' = (gateway_calls s ++ calls)%list
                /\ map call_api_key calls = keys)
          /\ forall e, last_error = Some e ->
               r = Raised (HTTPException 503 (get_user_friendly_error (str_of_exn e)))).
Proof.
  split; [|split; [|split]].
  - intros sec symbol exchange image pre api_key post s s1 s2 answer last_error Hfail Hok.
    rewrite section_task_loop.
    eapply fallback_loop_first_success;
      [apply section_attempt_one_call | exact Hfail | exact Hok].
  - intros sec symbol exchange image keys s s' last_error Hfail.
    rewrite section_task_loop.
    eapply fallback_loop_all_fail;
      [apply section_attempt_one_call | reflexivity | exact Hfail].
  - intros symbol exchange image legacy pre api_key post s s1 s2 answer last_error Hfail Hok.
    unfold analyze_with_fallback. rewrite analyze_with_fallback_loop_shared.
    eapply (fallback_loop_first_success _ (fun a : string => a));
      [apply fallback_attempt_one_call | exact Hfail | exact Hok].
  - intros symbol exchange image legacy keys s s' last_error Hfail.
    unfold analyze_with_fallback. rewrite analyze_with_fallback_loop_shared.
    eapply (fallback_loop_all_fail _ (fun a : string => a));
      [apply fallback_attempt_one_call | reflexivity | exact Hfail].
Qed.

Lemma fallback_loops_agree keys i rest symbol exchange image legacy s :
  analyze_with_fallback_loop World send_message strftime_now keys
    legacy_prompt structured_prompt i rest symbol exchange image legacy s
  = fallback_uniform_loop World send_message strftime_now keys
      legacy_prompt structured_prompt i rest symbol exchange image legacy s.
Proof.
  revert i s. induction rest as [|api_key rest IH]; intros i s; [reflexivity|].
  cbn [analyze_with_fallback_loop fallback_uniform_loop]. unfold try_except.
  match goal with
  | |- match ?body with _ => _ end = _ => destruct body as [[answer|e] s']
  end; [reflexivity|].
  destruct (_ =? _)%Z; [reflexivity|].
  destruct (_ || _); apply IH.
Qed.

(** C9. [analyze_with_fallback], whose handler tests the error text for
    503/overloaded, behaves on every input and in every state as the
    executor that goes on to the next key on any failure of a key that is
    not the last: the test changes nothing. *)
Theorem C9_error_kind_changes_nothing keys symbol exchange image legacy s :
  analyze_with_fallback World send_message strftime_now keys
    legacy_prompt structured_prompt symbol exchange image legacy s
  = fallback_uniform World send_message strftime_now keys
      legacy_prompt structured_prompt symbol exchange image legacy s.
Proof.
  unfold analyze_with_fallback, fallback_uniform. apply fallback_loops_agree.
Qed.

(** C10. With an empty chain each of the four section functions makes no
    gateway call and returns [None] without raising, while
    [analyze_with_fallback] raises the 503 error "all services busy"; a
    section function returns [None] only then: with a chain that is not
    empty its outcome is a text or an error. *)
Theorem C10_empty_chain :
  (forall sec symbol exchange image s,
     section_task' [] sec symbol exchange image s = (Returned None, s))
  /\ (forall symbol exchange image legacy s,
        analyze_with_fallback' [] symbol exchange image legacy s
        = (Raised (HTTPException 503 all_busy_detail), s))
  /\ (forall keys sec symbol exchange image s,
        fst (section_task' keys sec symbol exchange image s) = Returned None
        <-> keys = []).
Proof.
  split; [|split].
  - intros sec symbol exchange image s. destruct sec; reflexivity.
  - reflexivity.
  - intros keys sec symbol exchange image s. split.
    + intros Hnone. destruct keys as [|k rest]; [reflexivity|]. exfalso.
      rewrite section_task_loop in Hnone.
      destruct (fallback_loop_decides (section_attempt' sec symbol exchange image)
                  Some (fun s0 => (Returned None, s0))
                  (Z.of_nat (List.length (k :: rest))) 0 (k :: rest) s)
        as [(a & s' & H)|(e & s' & H)];
        [discriminate | lia | |]; rewrite H in Hnone; discriminate Hnone.
    + intros ->. destruct sec; reflexivity.
Qed.

End Executor.

(** C1 on the test double: the first key fails and the second answers;
    all three keys fail. *)
Lemma C1_fallback_tries_keys_in_order_witness :
  (demo_section_task demo_keys Technical
     (demo_state [inr "503 Service Unavailable"; inl "report"])
   = (Returned (Some "report"),
      {| world := [];
         gateway_calls :=
           [ {| call_api_key := "key-1"; call_prompt := "technical AAPL NASDAQ";
                call_image := Some "iVBORw==" |};
             {| call_api_key := "key-2"; call_prompt := "technical AAPL NASDAQ";
                call_image := Some "iVBORw==" |} ] |})
   /\ exists calls,
        [ {| call_api_key := "key-1"; call_prompt := "technical AAPL NASDAQ";
             call_image := Some "iVBORw==" |};
          {| call_api_key := "key-2"; call_prompt := "technical AAPL NASDAQ";
             call_image := Some "iVBORw==" |} ] = ([] ++ calls)%list
        /\ map call_api_key calls = (["key-1"] ++ ["key-2"])%list)
  /\ (exists r,
        demo_analyze_with_fallback demo_keys
          (demo_state [inr "401 Unauthorized"; inr "timeout"; inr "429 quota"])
        = (r, {| world := [];
                 gateway_calls :=
                   [ {| call_api_key := "key-1"; call_prompt := "structured AAPL NASDAQ";
                        call_image := Some "iVBORw==" |};
                     {| call_api_key := "key-2"; call_prompt := "structured AAPL NASDAQ";
                        call_image := Some "iVBORw==" |};
                     {| call_api_key := "key-3"; call_prompt := "structured AAPL NASDAQ";
                        call_image := Some "iVBORw==" |} ] |})
        /\ (exists calls,
              [ {| call_api_key := "key-1"; call_prompt := "structured AAPL NASDAQ";
                   call_image := Some "iVBORw==" |};
                {| call_api_key := "key-2"; call_prompt := "structured AAPL NASDAQ";
                   call_image := Some "iVBORw==" |};
                {| call_api_key := "key-3"; call_prompt := "structured AAPL NASDAQ";
                   call_image := Some "iVBORw==" |} ] = ([] ++ calls)%list
              /\ map call_api_key calls = demo_keys)
        /\ forall e, Some (Exception "429 quota") = Some e ->
             r = Raised (HTTPException 503 (get_user_friendly_error (str_of_exn e)))).
Proof.
  split.
  - refine (proj1 (C1_fallback_tries_keys_in_order scripted_send
                     (fun _ => "2025-01-01 00:00:00")
                     (demo_prompt "fundamental") (demo_prompt "sentiment")
                     (demo_prompt "technical") (demo_prompt "recommendations")
                     (fun symbol exchange t => demo_prompt "legacy" symbol exchange ++ " " ++ t)
                     (demo_prompt "structured"))
                  Technical "aapl" "nasdaq" "iVBORw==" ["key-1"] "key-2" ["key-3"]
                  (demo_state [inr "503 Service Unavailable"; inl "report"])
                  _ _ "report" _ _ _).
    + eapply (keys_fail_more [] "key-1"); [apply keys_fail_none | reflexivity].
    + reflexivity.
  - refine (proj2 (proj2 (proj2 (C1_fallback_tries_keys_in_order scripted_send
                     (fun _ => "2025-01-01 00:00:00")
                     (demo_prompt "fundamental") (demo_prompt "sentiment")
                     (demo_prompt "technical") (demo_prompt "recommendations")
                     (fun symbol exchange t => demo_prompt "legacy" symbol exchange ++ " " ++ t)
                     (demo_prompt "structured"))))
                  "aapl" "nasdaq" "iVBORw==" false demo_keys
                  (demo_state [inr "401 Unauthorized"; inr "timeout"; inr "429 quota"])
                  _ _ _).
    eapply (keys_fail_more ["key-1"; "key-2"] "key-3");
      [ eapply (keys_fail_more ["key-1"] "key-2");
        [ eapply (keys_fail_more [] "key-1"); [apply keys_fail_none | reflexivity]
        | reflexivity ]
      | reflexivity ].
Defined.

Example all_keys_fail_on_the_test_double :
  fst (demo_analyze_with_fallback demo_keys
         (demo_state [inr "401 Unauthorized"; inr "timeout"; inr "429 quota"]))
  = Raised (HTTPException 503 throttle_message)
  /\ fst (demo_section_task demo_keys Sentiment
            (demo_state [inr "boom"; inr "boom"; inr "HTTP 503 model overloaded"]))
     = Raised (HTTPException 503 busy_retry_message).
Proof. split; reflexivity. Qed.

Example C10_on_the_test_double :
  demo_section_task [] Fundamental (demo_state [inl "report"])
  = (Returned None, demo_state [inl "report"])
  /\ demo_analyze_with_fallback [] (demo_state [inl "report"])
     = (Raised (HTTPException 503 all_busy_detail), demo_state [inl "report"]).
Proof. split; reflexivity. Qed.

(** ** Analysis Orchestrator *)

Section Orchestrator.

Context {World : Type}.
Variable send_message : string -> UserMessage -> World -> (string + string) * World.
Variable fundamental_prompt sentiment_prompt : string -> string -> string.
Variable technical_prompt recommendations_prompt : string -> string -> string.
Variable validation_error : list string -> string.

Local Abbreviation outcome_of keys sec symbol exchange encoded task_world :=
  (section_outcome World send_message keys fundamental_prompt
     sentiment_prompt technical_prompt recommendations_prompt
     sec symbol exchange encoded task_world).
Local Abbreviation analyze_stock' keys :=
  (analyze_stock World send_message keys fundamental_prompt
     sentiment_prompt technical_prompt recommendations_prompt validation_error).

Lemma process_uploaded_image_returned image encoded :
  process_uploaded_image image = Returned encoded ->
  encoded = decode_utf8 (b64encode (file_content image)).
Proof.
  rewrite process_uploaded_image_cases.
  destruct (_ >? _)%Z; [discriminate|].
  destruct (negb _); [discriminate|].
  destruct (_ =? _)%Z; [discriminate|].
  intros H. injection H as <-. reflexivity.
Qed.

(** After a valid image the handler builds the response from what the
    four tasks gave, a failed task shown as its placeholder. *)
Lemma analyze_stock_valid keys symbol exchange image task_world generated timestamp encoded :
  process_uploaded_image image = Returned encoded ->
  analyze_stock' keys symbol exchange image task_world generated timestamp
  = reraise_user_friendly
      (new_StockAnalysisResponse validation_error
         (upper symbol) (upper exchange)
         ("data:image/png;base64," ++ encoded)
         (legacy_analysis_text symbol exchange generated)
         (section_shown Fundamental
            (outcome_of keys Fundamental symbol exchange encoded task_world))
         (section_shown Sentiment
            (outcome_of keys Sentiment symbol exchange encoded task_world))
         (section_shown Technical
            (outcome_of keys Technical symbol exchange encoded task_world))
         (section_shown Recommendations
            (outcome_of keys Recommendations symbol exchange encoded task_world))
         timestamp).
Proof.
  intros Hvalid. unfold analyze_stock. rewrite Hvalid. reflexivity.
Qed.

Lemma analyze_stock_invalid keys symbol exchange image task_world generated timestamp e :
  process_uploaded_image image = Raised e ->
  analyze_stock' keys symbol exchange image task_world generated timestamp
  = reraise_user_friendly (Raised e).
Proof. intros Hinvalid. unfold analyze_stock. rewrite Hinvalid. reflexivity. Qed.

Lemma reraise_returned {A : Type} (r : outcome A) (a : A) :
  reraise_user_friendly r = Returned a -> r = Returned a.
Proof. destruct r as [a'|[c d|m]]; simpl; intros H; congruence. Qed.

(** C8 (amended). For every successful analyze-stock request, the
    [chart_image] of the response is ["data:image/png;base64,"] followed by
    the base64 encoding of the uploaded bytes, whatever image media type the
    upload declares. *)
Theorem C8_chart_image_is_png_data_uri
    keys symbol exchange image task_world generated timestamp response :
  analyze_stock' keys symbol exchange image task_world generated timestamp
    = Returned response ->
  chart_image response
  = "data:image/png;base64," ++ decode_utf8 (b64encode (file_content image)).
Proof.
  intros Hok.
  destruct (process_uploaded_image image) as [encoded|e] eqn:Himage.
  - rewrite (analyze_stock_valid _ _ _ _ _ _ _ _ Himage) in Hok.
    apply reraise_returned in Hok.
    apply process_uploaded_image_returned in Himage. subst encoded.
    unfold new_StockAnalysisResponse in Hok.
    repeat match type of Hok with
           | match ?o with _ => _ end = _ => destruct o; try discriminate Hok
           end.
    injection Hok as <-. reflexivity.
  - rewrite (analyze_stock_invalid _ _ _ _ _ _ _ _ Himage) in Hok.
    destruct e; discriminate Hok.
Qed.

(** With a chain that has a first key, a section gives a text or an error. *)
Lemma section_outcome_decided primary backups sec symbol exchange encoded task_world :
  (exists answer,
     outcome_of (primary :: backups) sec symbol exchange encoded task_world
     = Returned (Some answer))
  \/ (exists e,
        outcome_of (primary :: backups) sec symbol exchange encoded task_world
        = Raised e).
Proof.
  unfold section_outcome. rewrite section_task_loop.
  match goal with
  | |- context [fallback_loop ?att ?fin ?exh ?n ?i ?keys ?s] =>
      destruct (fallback_loop_decides att fin exh n i keys s)
        as [(answer & s' & H)|(e & s' & H)];
        [discriminate | lia | |]; rewrite H
  end; [left | right]; eexists; reflexivity.
Qed.

(** C2. For every analyze-stock request whose image passes validation
    (the chain of keys having a first key, as the configured one has), the
    request completes with a response (HTTP success) in which the text of
    each section is the answer of its task when the task succeeded, and the
    placeholder "⚠️ <Section> analysis temporarily unavailable. Please try
    again." when the task failed; so one failed section out of four gives
    three real texts and one placeholder, and four failed sections still
    give a response. *)
Theorem C2_failed_sections_become_placeholders
    primary backups symbol exchange image task_world generated timestamp encoded :
  process_uploaded_image image = Returned encoded ->
  exists response,
    analyze_stock' (primary :: backups) symbol exchange image task_world
      generated timestamp = Returned response
    /\ forall sec,
         match outcome_of (primary :: backups) sec symbol exchange encoded task_world with
         | Returned (Some answer) => section_text sec response = answer
         | Returned None => False
         | Raised _ =>
             section_text sec response
             = "⚠️ " ++ section_name sec ++
               " analysis temporarily unavailable. Please try again."
         end.
Proof.
  intros Hvalid. rewrite (analyze_stock_valid _ _ _ _ _ _ _ _ Hvalid).
  pose proof (fun sec => section_outcome_decided primary backups sec symbol exchange
                           encoded task_world) as Hdec.
  destruct (Hdec Fundamental) as [(f & Hf)|(ef & Hf)];
    destruct (Hdec Sentiment) as [(s & Hs)|(es & Hs)];
    destruct (Hdec Technical) as [(t & Ht)|(et & Ht)];
    destruct (Hdec Recommendations) as [(r & Hr)|(er & Hr)];
    rewrite Hf, Hs, Ht, Hr; cbn [section_shown new_StockAnalysisResponse reraise_user_friendly];
    eexists; (split; [reflexivity|]);
    intros [| | |]; rewrite ?Hf, ?Hs, ?Ht, ?Hr; reflexivity.
Qed.

End Orchestrator.

(** C2 on the test double, with the sentiment section down. *)
Lemma C2_failed_sections_become_placeholders_witness :
  exists response,
    demo_analyze_stock png_upload (one_section_down 1) = Returned response
    /\ forall sec,
         match section_outcome (list (string + string)) scripted_send demo_keys
                 (demo_prompt "fundamental") (demo_prompt "sentiment")
                 (demo_prompt "technical") (demo_prompt "recommendations")
                 sec "aapl" "nasdaq" "iVBORw==" (one_section_down 1) with
         | Returned (Some answer) => section_text sec response = answer
         | Returned None => False
         | Raised _ =>
             section_text sec response
             = "⚠️ " ++ section_name sec ++
               " analysis temporarily unavailable. Please try again."
         end.
Proof.
  apply (C2_failed_sections_become_placeholders scripted_send
           (demo_prompt "fundamental") (demo_prompt "sentiment")
           (demo_prompt "technical") (demo_prompt "recommendations")
           (fun fields => "validation error")
           "key-1" ["key-2"; "key-3"] "aapl" "nasdaq" png_upload
           (one_section_down 1) "2025-01-01 00:00:00" "2025-01-01T00:00:00"
           "iVBORw==").
  reflexivity.
Defined.

Example one_section_down_response :
  demo_analyze_stock png_upload (one_section_down 1)
  = Returned
      {| symbol := "AAPL"; exchange := "NASDAQ";
         chart_image := "data:image/png;base64,iVBORw==";
         analysis := legacy_analysis_text "aapl" "nasdaq" "2025-01-01 00:00:00";
         fundamental_analysis := "report";
         sentiment_analysis :=
           "⚠️ Sentiment analysis temporarily unavailable. Please try again.";
         technical_analysis := "report";
         recommendations := "report";
         timestamp := "2025-01-01T00:00:00" |}.
Proof. reflexivity. Qed.

Example all_sections_down_response :
  demo_analyze_stock png_upload all_sections_down
  = Returned
      {| symbol := "AAPL"; exchange := "NASDAQ";
         chart_image := "data:image/png;base64,iVBORw==";
         analysis := legacy_analysis_text "aapl" "nasdaq" "2025-01-01 00:00:00";
         fundamental_analysis :=
           "⚠️ Fundamental analysis temporarily unavailable. Please try again.";
         sentiment_analysis :=
           "⚠️ Sentiment analysis temporarily unavailable. Please try again.";
         technical_analysis :=
           "⚠️ Technical analysis temporarily unavailable. Please try again.";
         recommendations :=
           "⚠️ Recommendations analysis temporarily unavailable. Please try again.";
         timestamp := "2025-01-01T00:00:00" |}.
Proof. reflexivity. Qed.

Example invalid_image_fails_the_request :
  demo_analyze_stock empty_png_upload (fun _ => [inl "report"]) = Raised EmptyPayload.
Proof. reflexivity. Qed.

(** C8, as the claim states it, fails: for a JPEG upload the data URI
    still says [image/png]. *)
Lemma C8_counterexample :
  exists response,
    demo_analyze_stock jpeg_upload (fun _ => [inl "report"]) = Returned response
    /\ content_type jpeg_upload = Some "image/jpeg"
    /\ chart_image response = "data:image/png;base64,/9g="
    /\ chart_image response <> "data:image/jpeg;base64,/9g=".
Proof.
  eexists. split; [reflexivity|]. split; [reflexivity|]. split; [reflexivity|].
  discriminate.
Qed.

(** C8 (amended) on a PNG upload. *)
Lemma C8_chart_image_is_png_data_uri_witness :
  exists response,
    demo_analyze_stock png_upload (fun _ => [inl "report"]) = Returned response
    /\ chart_image response
       = "data:image/png;base64," ++ decode_utf8 (b64encode (file_content png_upload)).
Proof.
  eexists. split; [reflexivity|].
  apply (C8_chart_image_is_png_data_uri scripted_send
           (demo_prompt "fundamental") (demo_prompt "sentiment")
           (demo_prompt "technical") (demo_prompt "recommendations")
           (fun fields => "validation error")
           demo_keys "aapl" "nasdaq" png_upload (fun _ => [inl "report"])
           "2025-01-01 00:00:00" "2025-01-01T00:00:00").
  reflexivity.
Defined.

(* ===================================================================== *)
(** * Part III: further properties of the code                             *)
(* ===================================================================== *)

(** ** Image Ingestor and upload endpoint *)

Lemma declares_image_spec (o : option string) :
  declares_image o = true
  <-> exists t, o = Some t /\ startswith t "image/" = true.
Proof.
  destruct o as [t|]; simpl; split.
  - intros H. exists t. auto.
  - intros (t' & Ht' & H). injection Ht' as <-. exact H.
  - discriminate.
  - intros (t' & Ht' & _). discriminate Ht'.
Qed.

(** X1. [process_uploaded_image] returns an encoding exactly for the
    uploads that are not empty, not longer than 10*1024*1024 bytes and
    declared with a content type that begins with [image/]. *)
Theorem ingest_succeeds_iff (image_file : UploadFile) :
  (exists encoded, process_uploaded_image image_file = Returned encoded)
  <-> (0 < len (file_content image_file) <= 10 * 1024 * 1024)%Z
      /\ exists t, content_type image_file = Some t
                   /\ startswith t "image/" = true.
Proof.
  rewrite <- declares_image_spec, process_uploaded_image_cases.
  assert (Hnn : (0 <= len (file_content image_file))%Z) by (unfold len; lia).
  destruct (Z.gtb_spec (len (file_content image_file)) (10 * 1024 * 1024)) as [Hgt|Hle].
  - split; [intros (x & H); discriminate H | lia].
  - destruct (declares_image (content_type image_file)); simpl.
    + destruct (Z.eqb_spec (len (file_content image_file)) 0) as [Hz|Hnz].
      * split; [intros (x & H); discriminate H | lia].
      * split; [intros _; split; [lia | reflexivity] | eauto].
    + split; [intros (x & H); discriminate H | intros [_ H]; discriminate H].
Qed.

(** X2. [process_uploaded_image] fails with [EmptyPayload] exactly for
    the uploads of length 0 whose declared content type begins with
    [image/]. *)
Theorem ingest_empty_payload_iff (image_file : UploadFile) :
  process_uploaded_image image_file = Raised EmptyPayload
  <-> len (file_content image_file) = 0%Z
      /\ exists t, content_type image_file = Some t
                   /\ startswith t "image/" = true.
Proof.
  rewrite <- declares_image_spec, process_uploaded_image_cases.
  destruct ingest_errors_distinct as (_ & Hp & Hi).
  destruct (Z.gtb_spec (len (file_content image_file)) (10 * 1024 * 1024)) as [Hgt|Hle].
  - split; [intros H; exfalso; apply Hp; congruence | lia].
  - destruct (declares_image (content_type image_file)); simpl.
    + destruct (Z.eqb_spec (len (file_content image_file)) 0) as [Hz|Hnz].
      * split; auto.
      * split; [discriminate | intros [H _]; contradiction].
    + split; [intros H; exfalso; apply Hi; congruence | intros [_ H]; discriminate H].
Qed.

Lemma ingest_raises_only_validation_errors (image_file : UploadFile) (e : exn) :
  process_uploaded_image image_file = Raised e ->
  e = PayloadTooLarge \/ e = InvalidMediaType \/ e = EmptyPayload.
Proof.
  rewrite process_uploaded_image_cases.
  destruct (_ >? _)%Z; [intros H; injection H as <-; auto|].
  destruct (negb _); [intros H; injection H as <-; auto|].
  destruct (_ =? _)%Z; [intros H; injection H as <-; auto | discriminate].
Qed.

Lemma ingest_returns_encoding (image_file : UploadFile) (encoded : string) :
  process_uploaded_image image_file = Returned encoded ->
  encoded = decode_utf8 (b64encode (file_content image_file))
  /\ file_content image_file <> [].
Proof.
  rewrite process_uploaded_image_cases.
  destruct (_ >? _)%Z; [discriminate|].
  destruct (negb _); [discriminate|].
  destruct (Z.eqb_spec (len (file_content image_file)) 0) as [|Hne]; [discriminate|].
  intros H. injection H as <-. split; [reflexivity|].
  intros Hnil. rewrite Hnil in Hne. apply Hne. reflexivity.
Qed.

(** *** The shape of the encoded text *)

Lemma b64_char_is_base64 (n : N) : (n < 64)%N -> is_base64_byte (b64_char n) = true.
Proof.
  intros Hn. unfold is_base64_byte. rewrite (b64_index_char n Hn). reflexivity.
Qed.

Lemma b64encode_length (data : list byte) :
  List.length (b64encode data) = 4 * ((List.length data + 2) / 3).
Proof.
  induction data as [|a|a b|a b c rest IH] using list_ind3; try reflexivity.
  cbn [b64encode List.length]. rewrite IH.
  replace (S (S (S (List.length rest))) + 2) with (List.length rest + 2 + 1 * 3) by lia.
  rewrite Nat.div_add by lia. lia.
Qed.

Lemma b64encode_chars (data : list byte) :
  forallb is_base64_byte (b64encode data) = true.
Proof.
  induction data as [|a|a b|a b c rest IH] using list_ind3.
  - reflexivity.
  - pose proof (byte_to_N_lt a) as Ha.
    destruct (sextets_bounded (Byte.to_N a) 0 0 Ha eq_refl eq_refl) as (B0 & _).
    destruct (tail_bytes_back (Byte.to_N a) 0 Ha eq_refl) as ((B1 & _) & _).
    cbn [b64encode forallb]. rewrite !b64_char_is_base64 by assumption. reflexivity.
  - pose proof (byte_to_N_lt a) as Ha. pose proof (byte_to_N_lt b) as Hb.
    destruct (sextets_bounded _ _ 0 Ha Hb eq_refl) as (B0 & B1 & _).
    destruct (tail_bytes_back _ _ Ha Hb) as (_ & B2 & _).
    cbn [b64encode forallb]. rewrite !b64_char_is_base64 by assumption. reflexivity.
  - pose proof (byte_to_N_lt a) as Ha. pose proof (byte_to_N_lt b) as Hb.
    pose proof (byte_to_N_lt c) as Hc.
    destruct (sextets_bounded _ _ _ Ha Hb Hc) as (B0 & B1 & B2 & B3).
    cbn [b64encode forallb]. rewrite !b64_char_is_base64 by assumption.
    rewrite IH. reflexivity.
Qed.

Lemma string_of_bytes_length (l : list byte) :
  String.length (string_of_list_byte l) = List.length l.
Proof.
  unfold string_of_list_byte. induction l as [|b l IH]; simpl; congruence.
Qed.

Lemma string_of_bytes_chars (p : byte -> bool) (l : list byte) :
  all_chars (fun c => p (byte_of_ascii c)) (string_of_list_byte l) = forallb p l.
Proof.
  unfold string_of_list_byte. induction l as [|b l IH]; [reflexivity|].
  simpl. rewrite byte_of_ascii_of_byte, IH. reflexivity.
Qed.

(** X3. The text [process_uploaded_image] returns for a payload of [n]
    bytes has 4 * ceil(n / 3) characters, each of the base64 alphabet or
    the padding sign, and is not empty. *)
Theorem ingest_encoding_shape (image_file : UploadFile) (encoded : string) :
  process_uploaded_image image_file = Returned encoded ->
  String.length encoded = 4 * ((List.length (file_content image_file) + 2) / 3)
  /\ all_chars is_base64_char encoded = true
  /\ encoded <> "".
Proof.
  intros H. apply ingest_returns_encoding in H as [-> Hne].
  unfold decode_utf8. split; [|split].
  - rewrite string_of_bytes_length. apply b64encode_length.
  - unfold is_base64_char. rewrite string_of_bytes_chars. apply b64encode_chars.
  - intros Hempty.
    assert (Hlen : String.length (string_of_list_byte (b64encode (file_content image_file))) = 0)
      by (rewrite Hempty; reflexivity).
    rewrite string_of_bytes_length, b64encode_length in Hlen.
    destruct (file_content image_file) as [|b l]; [congruence|].
    cbn [List.length] in Hlen.
    assert (1 <= (S (List.length l) + 2) / 3) by (apply Nat.div_le_lower_bound; lia).
    lia.
Qed.

(** X3 on a four-byte PNG upload. *)
Lemma ingest_encoding_shape_witness :
  String.length "iVBORw==" = 4 * ((List.length (file_content png_upload) + 2) / 3)
  /\ all_chars is_base64_char "iVBORw==" = true
  /\ "iVBORw==" <> "".
Proof. apply (ingest_encoding_shape png_upload "iVBORw=="). reflexivity. Defined.

(** X4. The endpoint [upload_image] answers an upload that
    [process_uploaded_image] accepts with [success], the name of the file
    and an [image_data] that decodes to the uploaded bytes; it fails exactly
    when [process_uploaded_image] fails, and with the same error. *)
Theorem upload_image_outcome (file : UploadFile) :
  (forall r, upload_image file = Returned r ->
     success r = true
     /\ uploaded_filename r = Server.filename file
     /\ b64decode (encode_utf8 (image_data r)) = Some (file_content file))
  /\ (forall e, upload_image file = Raised e
                <-> process_uploaded_image file = Raised e).
Proof.
  unfold upload_image.
  destruct (process_uploaded_image file) as [encoded|e0] eqn:Hp.
  - apply ingest_returns_encoding in Hp as [-> _]. split.
    + intros r H. injection H as <-. cbn [success uploaded_filename image_data].
      split; [reflexivity|]. split; [reflexivity|].
      unfold encode_utf8, decode_utf8. rewrite list_byte_of_string_of_list_byte.
      apply b64decode_b64encode.
    + intros e. split; discriminate.
  - pose proof (ingest_raises_only_validation_errors _ _ Hp) as Hval.
    assert (Hre : reraise_user_friendly (@Raised UploadImageResult e0) = Raised e0)
      by (destruct Hval as [ -> | [ -> | -> ] ]; reflexivity).
    rewrite Hre. split; [discriminate|].
    intros e. split; intros H; injection H as <-; reflexivity.
Qed.

(** X4 on an empty PNG upload and on a PNG upload. *)
Lemma upload_image_outcome_witness :
  (upload_image empty_png_upload = Raised EmptyPayload
   <-> process_uploaded_image empty_png_upload = Raised EmptyPayload)
  /\ b64decode (encode_utf8 "iVBORw==") = Some (file_content png_upload).
Proof.
  split.
  - exact (proj2 (upload_image_outcome empty_png_upload) EmptyPayload).
  - exact (proj2 (proj2 (proj1 (upload_image_outcome png_upload)
                           {| success := true;
                              message := "✅ Image uploaded successfully! Ready for analysis.";
                              image_data := "iVBORw==";
                              uploaded_filename := Some "chart.png" |} eq_refl))).
Defined.

(** ** The serverless upload handler *)

Section UploadHandler.

Import UploadImageApi.

(** The handler refuses a form that did not parse, that is not indexable,
    that has no part named [file], or that has several. *)
Lemma do_POST_body_refuses (content_type : string) (form : outcome FieldStorage) :
  str_in "multipart/form-data" content_type = false
  \/ (exists e, form = Raised e)
  \/ form = Returned None
  \/ (exists parts,
        form = Returned (Some parts)
        /\ forall file_item, filter (named "file") parts <> [file_item]) ->
  exists e, do_POST_body content_type form = Raised e.
Proof.
  unfold do_POST_body.
  intros [Hct|[(e & ->)|[->|(parts & -> & Hnot)]]].
  - rewrite Hct. eexists. reflexivity.
  - destruct (str_in _ content_type); eexists; reflexivity.
  - destruct (str_in _ content_type); eexists; reflexivity.
  - destruct (str_in _ content_type); cbn [negb]; [|eexists; reflexivity].
    unfold form_contains, form_getitem. rewrite existsb_filter.
    destruct (filter (named "file") parts) as [|item [|item' rest]].
    + eexists. reflexivity.
    + exfalso. apply (Hnot item). reflexivity.
    + eexists. reflexivity.
Qed.

Local Ltac clash Hreturned Hraised :=
  exfalso; generalize (eq_trans (eq_sym Hreturned) Hraised); discriminate.

(** X5. The handler of [api/upload-image.py] accepts a request exactly
    when its Content-Type header contains [multipart/form-data] and
    [cgi.FieldStorage] parses it to a form with exactly one part named
    [file], which has a file name and a file that is not empty and not
    longer than 10*1024*1024 bytes, whatever the kind of file; the
    [image_data] of its answer then decodes to the bytes of the file. *)
Theorem handler_accepts_iff (content_type : string) (form : outcome FieldStorage) :
  ((exists body, do_POST_body content_type form = Returned body)
   <-> str_in "multipart/form-data" content_type = true
       /\ exists parts file_item image_data,
            form = Returned (Some parts)
            /\ filter (named "file") parts = [file_item]
            /\ truthy (UploadImageApi.filename file_item) = true
            /\ file file_item = Some image_data
            /\ (0 < len image_data <= 10 * 1024 * 1024)%Z)
  /\ (forall body parts file_item image_data,
        do_POST_body content_type form = Returned body ->
        form = Returned (Some parts) ->
        filter (named "file") parts = [file_item] ->
        file file_item = Some image_data ->
        json_get body "success" = Some (JBool true)
        /\ exists encoded,
             json_get body "image_data" = Some (JStr encoded)
             /\ b64decode (encode_utf8 encoded) = Some image_data).
Proof.
  split.
  - split.
    + intros (body & Hbody).
      destruct (str_in "multipart/form-data" content_type) eqn:Hct;
        [|destruct (do_POST_body_refuses content_type form (or_introl Hct)) as (e & He);
          clash Hbody He].
      split; [reflexivity|].
      destruct form as [[parts|]|e0];
        [| destruct (do_POST_body_refuses content_type (Returned None)) as (e & He);
           [auto | clash Hbody He]
         | destruct (do_POST_body_refuses content_type (Raised e0)) as (e & He);
           [eauto | clash Hbody He] ].
      destruct (filter (named "file") parts) as [|file_item [|item' rest]] eqn:Hone;
        [ destruct (do_POST_body_refuses content_type (Returned (Some parts))) as (e & He);
          [ right; right; right; exists parts; split; [reflexivity|];
            intros it; rewrite Hone; discriminate
          | clash Hbody He ]
        |
        | destruct (do_POST_body_refuses content_type (Returned (Some parts))) as (e & He);
          [ right; right; right; exists parts; split; [reflexivity|];
            intros it; rewrite Hone; discriminate
          | clash Hbody He ] ].
      pose proof (eq_trans (eq_sym Hbody)
                    (do_POST_body_one_file content_type parts file_item Hct Hone)) as Hb.
      destruct (truthy (UploadImageApi.filename file_item)) eqn:Hname;
        cbn [negb] in Hb; [|discriminate Hb].
      destruct (file file_item) as [image_data|] eqn:Hfile; [|discriminate Hb].
      assert (Hnn : (0 <= len image_data)%Z) by (unfold len; lia).
      destruct (Z.eqb_spec (len image_data) 0) as [Hz|Hnz]; [discriminate Hb|].
      destruct (Z.gtb_spec (len image_data) (10 * 1024 * 1024)) as [Hgt|Hle];
        [discriminate Hb|].
      exists parts, file_item, image_data. repeat split; auto; lia.
    + intros (Hct & parts & file_item & image_data & -> & Hone & Hname & Hfile & Hlen).
      pose proof (do_POST_body_one_file content_type parts file_item Hct Hone) as Hb.
      rewrite Hname, Hfile in Hb. cbn [negb] in Hb.
      destruct (Z.eqb_spec (len image_data) 0) as [Hz|Hnz]; [lia|].
      destruct (Z.gtb_spec (len image_data) (10 * 1024 * 1024)) as [Hgt|Hle]; [lia|].
      eexists. exact Hb.
  - intros body parts file_item image_data Hbody -> Hone Hfile.
    destruct (str_in "multipart/form-data" content_type) eqn:Hct;
      [|destruct (do_POST_body_refuses content_type (Returned (Some parts))
                    (or_introl Hct)) as (e & He); clash Hbody He].
    pose proof (eq_trans (eq_sym Hbody)
                  (do_POST_body_one_file content_type parts file_item Hct Hone)) as Hb.
    rewrite Hfile in Hb.
    destruct (negb _); [discriminate Hb|].
    destruct (_ =? _)%Z; [discriminate Hb|].
    destruct (_ >? _)%Z; [discriminate Hb|].
    injection Hb as ->. split; [reflexivity|]. eexists. split; [reflexivity|].
    unfold encode_utf8, decode_utf8. rewrite list_byte_of_string_of_list_byte.
    apply b64decode_b64encode.
Qed.

(** X5 on a form with a four-byte file. *)
Lemma handler_accepts_iff_witness :
  exists body, do_POST_body "multipart/form-data; boundary=x" png_form = Returned body.
Proof.
  apply (proj1 (handler_accepts_iff "multipart/form-data; boundary=x" png_form)).
  split; [reflexivity|].
  exists [png_form_file], png_form_file, ["137"; "P"; "N"; "G"]%byte.
  repeat split; try reflexivity. discriminate.
Defined.

(** X6. Whatever [process_uploaded_image] of [server.py] accepts, the
    handler accepts too when its Content-Type header contains
    [multipart/form-data] and the form parses to exactly one part named
    [file] that has a file name and the same bytes; both give the same
    encoded text. *)
Theorem handler_agrees_with_server
    (image_file : UploadFile) (encoded content_type : string)
    (parts : list FieldItem) (file_item : FieldItem) :
  process_uploaded_image image_file = Returned encoded ->
  str_in "multipart/form-data" content_type = true ->
  filter (named "file") parts = [file_item] ->
  truthy (UploadImageApi.filename file_item) = true ->
  file file_item = Some (file_content image_file) ->
  exists body,
    do_POST_body content_type (Returned (Some parts)) = Returned body
    /\ json_get body "image_data" = Some (JStr encoded).
Proof.
  intros Hserver Hct Hone Hname Hfile.
  assert (Hvalid : exists x, process_uploaded_image image_file = Returned x) by eauto.
  apply ingest_succeeds_iff in Hvalid as [Hlen _].
  apply ingest_returns_encoding in Hserver as [-> _].
  rewrite (do_POST_body_one_file content_type parts file_item Hct Hone), Hname, Hfile.
  cbn [negb].
  destruct (Z.eqb_spec (len (file_content image_file)) 0) as [Hz|Hnz]; [lia|].
  destruct (Z.gtb_spec (len (file_content image_file)) (10 * 1024 * 1024)) as [Hgt|Hle];
    [lia|].
  eexists. split; reflexivity.
Qed.

(** X6 on the PNG upload. *)
Lemma handler_agrees_with_server_witness :
  exists body,
    do_POST_body "multipart/form-data; boundary=x" png_form = Returned body
    /\ json_get body "image_data" = Some (JStr "iVBORw==").
Proof.
  apply (handler_agrees_with_server png_upload "iVBORw=="
           "multipart/form-data; boundary=x" [png_form_file] png_form_file);
    reflexivity.
Defined.

(** X7. On every request the handler first puts the status line 200 and
    ends the headers; a failure is told by a second status line, 400, sent
    after that, followed by the JSON object whose [error] is the raw text
    of the exception; 400 is sent exactly when the body of the handler
    raises. *)
Theorem handler_status_lines (content_type : string) (form : outcome FieldStorage) :
  first_status (do_POST content_type form) = Some 200%Z
  /\ (In (send_response 400) (do_POST content_type form)
      <-> exists e, do_POST_body content_type form = Raised e)
  /\ (forall e, do_POST_body content_type form = Raised e ->
        exists started,
          do_POST content_type form
          = (started ++
             [ end_headers; send_response 400;
               send_header "Content-type" "application/json";
               send_header "Access-Control-Allow-Origin" "*";
               end_headers;
               write_json [ ("error", JStr (str_of_exn e)) ] ])%list).
Proof.
  unfold do_POST. split; [reflexivity|].
  destruct (do_POST_body content_type form) as [body|e0]; split.
  - split.
    + cbn [app In]. intros H.
      repeat (destruct H as [H|H]; [discriminate H|]). contradiction.
    + intros (e & H). discriminate H.
  - discriminate.
  - split; [eauto|]. intros _. cbn [app In]. do 6 right. left. reflexivity.
  - intros e H. injection H as <-.
    exists [ send_response 200;
             send_header "Content-type" "application/json";
             send_header "Access-Control-Allow-Origin" "*";
             send_header "Access-Control-Allow-Methods" "GET, POST, OPTIONS";
             send_header "Access-Control-Allow-Headers" "*" ].
    reflexivity.
Qed.

End UploadHandler.

(** ** Error Classifier: its range *)

(** X8. Whatever the text, [get_user_friendly_error] gives one of its
    eight fixed messages: no part of the raw error text reaches the user. *)
Theorem classifier_gives_fixed_messages (error_str : string) :
  In (get_user_friendly_error error_str) classifier_messages.
Proof.
  unfold get_user_friendly_error, classifier_messages.
  repeat match goal with
         | |- context [if ?b then _ else _] => destruct b
         end;
    cbn [In]; auto 10.
Qed.

(** ** Fallback Executor: what every run keeps *)

Section ExecutorInvariants.

Context {World : Type}.
Variable send_message : string -> UserMessage -> World -> (string + string) * World.
Variable strftime_now : World -> string.

Implicit Types s : St World.

Section LoopInvariants.

Context {A B : Type}.
Variable attempt : string -> M World A.
Variable finish : A -> B.
Variable exhausted : M World B.

(** The loop raises nothing but the classified 503 error, or what
    [exhausted] raises. *)
Lemma fallback_loop_raises n i keys s e :
  fst (fallback_loop attempt finish exhausted n i keys s) = Raised e ->
  (exists e0, e = HTTPException 503 (get_user_friendly_error (str_of_exn e0)))
  \/ (exists s0, fst (exhausted s0) = Raised e).
Proof.
  revert i s. induction keys as [|api_key rest IH]; intros i s H.
  - right. exists s. exact H.
  - cbn [fallback_loop] in H. destruct (attempt api_key s) as [[a|e0] s'].
    + discriminate H.
    + destruct (i =? n - 1)%Z.
      * left. exists e0. cbn [fst] in H. congruence.
      * apply (IH _ _ H).
Qed.

(** What an attempt with a key adds to the log of calls. *)
Variable expected : string -> GatewayCall -> Prop.
Hypothesis attempt_logs :
  forall api_key s r s',
    attempt api_key s = (r, s') ->
    exists call,
      gateway_calls s' = (gateway_calls s ++ [call])%list /\ expected api_key call.
Hypothesis exhausted_keeps_state : forall s, snd (exhausted s) = s.

(** The calls of a run are calls with a prefix of the keys, in order. *)
Lemma fallback_loop_calls_prefix n i keys s :
  exists calls,
    gateway_calls (snd (fallback_loop attempt finish exhausted n i keys s))
    = (gateway_calls s ++ calls)%list
    /\ List.length calls <= List.length keys
    /\ Forall2 expected (firstn (List.length calls) keys) calls.
Proof.
  revert i s. induction keys as [|api_key rest IH]; intros i s.
  - exists []. cbn [fallback_loop]. rewrite exhausted_keeps_state, app_nil_r.
    repeat split; [apply Nat.le_refl | constructor].
  - cbn [fallback_loop]. destruct (attempt api_key s) as [[a|e0] s'] eqn:Hattempt;
      destruct (attempt_logs _ _ _ _ Hattempt) as (call & Hcall & Hexp).
    + exists [call]. cbn [snd List.length firstn]. repeat split;
        [exact Hcall | lia | repeat constructor; exact Hexp].
    + destruct (i =? n - 1)%Z.
      * exists [call]. cbn [snd List.length firstn]. repeat split;
          [exact Hcall | lia | repeat constructor; exact Hexp].
      * destruct (IH (i + 1)%Z s') as (calls & Hcalls & Hlen & Hall).
        exists (call :: calls). cbn [List.length firstn]. repeat split.
        -- rewrite Hcalls, Hcall, <- app_assoc. reflexivity.
        -- lia.
        -- constructor; assumption.
Qed.

End LoopInvariants.

Lemma Forall2_eq_map {X Y : Type} (f : X -> Y) (l : list X) (l' : list Y) :
  Forall2 (fun x y => y = f x) l l' -> l' = map f l.
Proof. induction 1; simpl; congruence. Qed.

Lemma analyze_with_gemini_api_logs prompt chart_image_base64 api_key s r s' :
  analyze_with_gemini_api World send_message api_key prompt chart_image_base64 s = (r, s') ->
  gateway_calls s'
  = (gateway_calls s ++
     [ {| call_api_key := api_key; call_prompt := prompt;
          call_image := chart_image_base64 |} ])%list.
Proof.
  intros H. unfold analyze_with_gemini_api, try_except in H.
  match type of H with
  | context [send_message ?k ?m ?w] => destruct (send_message k m w) as [[answer|msg] w']
  end; injection H as <- <-; reflexivity.
Qed.

Variable fundamental_prompt sentiment_prompt : string -> string -> string.
Variable technical_prompt recommendations_prompt : string -> string -> string.
Variable legacy_prompt : string -> string -> string -> string.
Variable structured_prompt : string -> string -> string.

Local Abbreviation section_attempt' :=
  (section_attempt World send_message fundamental_prompt sentiment_prompt
     technical_prompt recommendations_prompt).
Local Abbreviation section_prompt' :=
  (section_prompt fundamental_prompt sentiment_prompt
     technical_prompt recommendations_prompt).

(** X9. In every state and with every chain, the gateway calls a section
    function makes are calls with a prefix of the chain, in the order of
    the chain and one per key, so never more than there are keys; each of
    them carries the prompt of the section, and the image exactly for the
    technical section. *)
Theorem section_calls_follow_the_chain keys sec symbol exchange image s :
  exists calls,
    gateway_calls
      (snd (section_task World send_message keys fundamental_prompt sentiment_prompt
              technical_prompt recommendations_prompt sec symbol exchange image s))
    = (gateway_calls s ++ calls)%list
    /\ List.length calls <= List.length keys
    /\ calls
       = map (fun api_key =>
                {| call_api_key := api_key;
                   call_prompt := section_prompt' sec symbol exchange;
                   call_image := match sec with
                                 | Technical => Some image
                                 | _ => None
                                 end |})
           (firstn (List.length calls) keys).
Proof.
  rewrite section_task_loop.
  destruct (fallback_loop_calls_prefix
              (section_attempt' sec symbol exchange image) Some
              (fun s0 => (Returned None, s0))
              (fun api_key call =>
                 call = {| call_api_key := api_key;
                           call_prompt := section_prompt' sec symbol exchange;
                           call_image := section_image sec image |})
              (fun api_key s0 r s' H =>
                 ex_intro _ _ (conj (analyze_with_gemini_api_logs _ _ _ _ _ _ H) eq_refl))
              (fun s0 => eq_refl)
              (Z.of_nat (List.length keys)) 0%Z keys s)
    as (calls & Hcalls & Hlen & Hall).
  exists calls. split; [exact Hcalls|]. split; [exact Hlen|].
  apply Forall2_eq_map in Hall. rewrite Hall at 1.
  apply map_ext. intros api_key. destruct sec; reflexivity.
Qed.

(** X10. Whatever a section function or [analyze_with_fallback] raises,
    in any state and with any chain, is an [HTTPException] of status 503
    whose detail is one of the fixed messages of the Error Classifier (for
    [analyze_with_fallback] also the "all services busy" message): the raw
    text of a provider error does not leave the executor. *)
Theorem executors_raise_classified_503 :
  (forall keys sec symbol exchange image s e,
     fst (section_task World send_message keys fundamental_prompt sentiment_prompt
            technical_prompt recommendations_prompt sec symbol exchange image s)
     = Raised e ->
     exists detail,
       e = HTTPException 503 detail /\ In detail classifier_messages)
  /\ (forall keys symbol exchange image legacy s e,
        fst (analyze_with_fallback World send_message strftime_now keys
               legacy_prompt structured_prompt symbol exchange image legacy s)
        = Raised e ->
        exists detail,
          e = HTTPException 503 detail
          /\ (detail = all_busy_detail \/ In detail classifier_messages)).
Proof.
  split.
  - intros keys sec symbol exchange image s e H. rewrite section_task_loop in H.
    apply fallback_loop_raises in H as [(e0 & ->)|(s0 & H)]; [|discriminate H].
    eexists. split; [reflexivity | apply classifier_gives_fixed_messages].
  - intros keys symbol exchange image legacy s e H. unfold analyze_with_fallback in H.
    rewrite analyze_with_fallback_loop_shared in H.
    apply fallback_loop_raises in H as [(e0 & ->)|(s0 & H)].
    + eexists. split; [reflexivity | right; apply classifier_gives_fixed_messages].
    + injection H as <-. eexists. split; [reflexivity | left; reflexivity].
Qed.

End ExecutorInvariants.

(** X10 on the test double: three keys fail, the last with a text that no
    rule matches. *)
Lemma executors_raise_classified_503_witness :
  exists detail,
    HTTPException 503 generic_message = HTTPException 503 detail
    /\ In detail classifier_messages.
Proof.
  apply (proj1 (executors_raise_classified_503 scripted_send
                  (fun _ => "2025-01-01 00:00:00")
                  (demo_prompt "fundamental") (demo_prompt "sentiment")
                  (demo_prompt "technical") (demo_prompt "recommendations")
                  (fun symbol exchange t => demo_prompt "legacy" symbol exchange ++ " " ++ t)
                  (demo_prompt "structured"))
           demo_keys Sentiment "aapl" "nasdaq" "iVBORw=="
           (demo_state [inr "boom"; inr "boom"; inr "secret stack trace"])).
  reflexivity.
Defined.

(** ** Analysis Orchestrator: when the request fails, and what it echoes *)

Section OrchestratorOutcomes.

Context {World : Type}.
Variable send_message : string -> UserMessage -> World -> (string + string) * World.
Variable fundamental_prompt sentiment_prompt : string -> string -> string.
Variable technical_prompt recommendations_prompt : string -> string -> string.
Variable validation_error : list string -> string.

Local Abbreviation analyze_stock' keys :=
  (analyze_stock World send_message keys fundamental_prompt
     sentiment_prompt technical_prompt recommendations_prompt validation_error).

Lemma analyze_stock_valid_returns
    primary backups symbol exchange image task_world generated timestamp encoded :
  process_uploaded_image image = Returned encoded ->
  exists response,
    analyze_stock' (primary :: backups) symbol exchange image task_world
      generated timestamp = Returned response.
Proof.
  intros Hvalid. rewrite (analyze_stock_valid _ _ _ _ _ _ _ _ _ _ _ _ _ _ Hvalid).
  pose proof (fun sec =>
                section_outcome_decided send_message fundamental_prompt sentiment_prompt
                  technical_prompt recommendations_prompt primary backups sec
                  symbol exchange encoded task_world) as Hdec.
  destruct (Hdec Fundamental) as [(f & Hf)|(ef & Hf)];
    destruct (Hdec Sentiment) as [(s & Hs)|(es & Hs)];
    destruct (Hdec Technical) as [(t & Ht)|(et & Ht)];
    destruct (Hdec Recommendations) as [(r & Hr)|(er & Hr)];
    rewrite Hf, Hs, Ht, Hr; eexists; reflexivity.
Qed.

(** X11. With a chain that has a first key, [analyze_stock] fails exactly
    when [process_uploaded_image] fails on the image, and then with that
    very error: no failure of the external service fails the request. *)
Theorem analyze_stock_fails_iff_image_refused
    primary backups symbol exchange image task_world generated timestamp e :
  analyze_stock World send_message (primary :: backups) fundamental_prompt
    sentiment_prompt technical_prompt recommendations_prompt validation_error
    symbol exchange image task_world generated timestamp = Raised e
  <-> process_uploaded_image image = Raised e.
Proof.
  destruct (process_uploaded_image image) as [encoded|e0] eqn:Himage.
  - destruct (analyze_stock_valid_returns primary backups symbol exchange image
                task_world generated timestamp encoded Himage) as (response & ->).
    split; discriminate.
  - rewrite (analyze_stock_invalid _ _ _ _ _ _ _ _ _ _ _ _ _ _ Himage).
    destruct (ingest_raises_only_validation_errors _ _ Himage) as [ -> | [ -> | -> ] ];
      split; intros H; injection H as <-; reflexivity.
Qed.

(** X12. With an empty chain of keys, [analyze_stock] fails on every
    valid image with status 500: the four sections give [None], which the
    response model refuses. *)
Theorem analyze_stock_without_keys_fails
    symbol exchange image task_world generated timestamp encoded :
  process_uploaded_image image = Returned encoded ->
  analyze_stock World send_message [] fundamental_prompt
    sentiment_prompt technical_prompt recommendations_prompt validation_error
    symbol exchange image task_world generated timestamp
  = Raised (HTTPException 500
              (get_user_friendly_error
                 (validation_error
                    [ "fundamental_analysis"; "sentiment_analysis";
                      "technical_analysis"; "recommendations" ]))).
Proof.
  intros Hvalid. rewrite (analyze_stock_valid _ _ _ _ _ _ _ _ _ _ _ _ _ _ Hvalid).
  reflexivity.
Qed.

Lemma analyze_stock_echo keys symbol exchange image task_world generated timestamp response :
  analyze_stock' keys symbol exchange image task_world generated timestamp
    = Returned response ->
  Server.symbol response = upper symbol
  /\ Server.exchange response = upper exchange
  /\ Server.timestamp response = timestamp.
Proof.
  intros Hok.
  destruct (process_uploaded_image image) as [encoded|e] eqn:Himage.
  - rewrite (analyze_stock_valid _ _ _ _ _ _ _ _ _ _ _ _ _ _ Himage) in Hok.
    apply reraise_returned in Hok. unfold new_StockAnalysisResponse in Hok.
    repeat match type of Hok with
           | match ?o with _ => _ end = _ => destruct o; try discriminate Hok
           end.
    injection Hok as <-. repeat split.
  - rewrite (analyze_stock_invalid _ _ _ _ _ _ _ _ _ _ _ _ _ _ Himage) in Hok.
    destruct e; discriminate Hok.
Qed.

Lemma lower_upper_char (c : ascii) : lower_char (upper_char c) = lower_char c.
Proof. destruct c as [[] [] [] [] [] [] [] []]; reflexivity. Qed.

Lemma upper_char_not_lower (c : ascii) : is_ascii_lower (upper_char c) = false.
Proof. destruct c as [[] [] [] [] [] [] [] []]; reflexivity. Qed.

Lemma lower_upper (s : string) : lower (upper s) = lower s.
Proof. induction s as [|c s IH]; simpl; [|rewrite lower_upper_char, IH]; reflexivity. Qed.

Lemma upper_has_no_lower_case (s : string) :
  all_chars (fun c => negb (is_ascii_lower c)) (upper s) = true.
Proof.
  induction s as [|c s IH]; [reflexivity|].
  cbn [upper all_chars]. rewrite upper_char_not_lower, IH. reflexivity.
Qed.

(** X13. In every response of [analyze_stock] the symbol and the exchange
    hold no ASCII lower-case letter; when the symbol (the exchange) of the
    request is ASCII text, the one of the response is the same text up to
    the case of letters. *)
Theorem analyze_stock_normalises_names
    keys symbol exchange image task_world generated timestamp response :
  analyze_stock World send_message keys fundamental_prompt
    sentiment_prompt technical_prompt recommendations_prompt validation_error
    symbol exchange image task_world generated timestamp = Returned response ->
  (all_chars (fun c => negb (is_ascii_lower c)) (Server.symbol response) = true
   /\ all_chars (fun c => negb (is_ascii_lower c)) (Server.exchange response) = true)
  /\ (is_ascii_text symbol = true ->
      lower (Server.symbol response) = lower symbol)
  /\ (is_ascii_text exchange = true ->
      lower (Server.exchange response) = lower exchange).
Proof.
  intros Hok. apply analyze_stock_echo in Hok as (-> & -> & _).
  repeat split; intros; first [apply lower_upper | apply upper_has_no_lower_case].
Qed.

End OrchestratorOutcomes.

(** X12 on the test double. *)
Lemma analyze_stock_without_keys_fails_witness :
  analyze_stock (list (string + string)) scripted_send []
    (demo_prompt "fundamental") (demo_prompt "sentiment")
    (demo_prompt "technical") (demo_prompt "recommendations")
    (fun fields => "4 validation errors for StockAnalysisResponse")
    "aapl" "nasdaq" png_upload (fun _ => [inl "report"])
    "2025-01-01 00:00:00" "2025-01-01T00:00:00"
  = Raised (HTTPException 500
              (get_user_friendly_error "4 validation errors for StockAnalysisResponse")).
Proof.
  apply (analyze_stock_without_keys_fails scripted_send
           (demo_prompt "fundamental") (demo_prompt "sentiment")
           (demo_prompt "technical") (demo_prompt "recommendations")
           (fun fields => "4 validation errors for StockAnalysisResponse")
           "aapl" "nasdaq" png_upload (fun _ => [inl "report"])
           "2025-01-01 00:00:00" "2025-01-01T00:00:00" "iVBORw==").
  reflexivity.
Defined.

(** X13 on the test double. *)
Lemma analyze_stock_normalises_names_witness :
  (all_chars (fun c => negb (is_ascii_lower c)) "AAPL" = true
   /\ all_chars (fun c => negb (is_ascii_lower c)) "NASDAQ" = true)
  /\ lower "AAPL" = lower "aapl"
  /\ lower "NASDAQ" = lower "nasdaq".
Proof.
  destruct (analyze_stock_normalises_names scripted_send
              (demo_prompt "fundamental") (demo_prompt "sentiment")
              (demo_prompt "technical") (demo_prompt "recommendations")
              (fun fields => "validation error")
              demo_keys "aapl" "nasdaq" png_upload (fun _ => [inl "report"])
              "2025-01-01 00:00:00" "2025-01-01T00:00:00"
              {| symbol := "AAPL"; exchange := "NASDAQ";
                 chart_image := "data:image/png;base64,iVBORw==";
                 analysis := legacy_analysis_text "aapl" "nasdaq" "2025-01-01 00:00:00";
                 fundamental_analysis := "report"; sentiment_analysis := "report";
                 technical_analysis := "report"; recommendations := "report";
                 timestamp := "2025-01-01T00:00:00" |} eq_refl)
    as (Hupper & Hsymbol & Hexchange).
  split; [exact Hupper|]. split; [apply Hsymbol | apply Hexchange]; reflexivity.
Defined.

(** ** The legacy path *)

Section LegacyPath.

Context {World : Type}.
Variable send_message : string -> UserMessage -> World -> (string + string) * World.
Variable requests_get : GetRequest -> World -> (ChartResponse + string) * World.
Variable strftime_now : World -> string.
Variable isoformat_now : World -> string.
Variable CHART_IMG_API_KEY : option string.
Variable legacy_report_prompt : string -> string -> string -> string.
Variable deprecated_prompt : string -> string -> string.
Variable validation_error : list string -> string.

Implicit Types s : St World.

Local Abbreviation fetch' :=
  (fetch_chart_image World requests_get CHART_IMG_API_KEY).

(** [fetch_chart_image], case by case on what the provider answers. *)
Lemma fetch_chart_image_cases symbol exchange s :
  fetch' symbol exchange s =
    let '(r, w) := requests_get (chart_request CHART_IMG_API_KEY symbol exchange) (world s) in
    let s' := {| world := w; gateway_calls := gateway_calls s |} in
    match r with
    | inl response =>
        if (status_code response =? 200)%Z then
          (Returned (decode_utf8 (b64encode (content response))), s')
        else
          (Raised (HTTPException 500
                     ("Chart fetch error: " ++
                      str_of_exn (HTTPException (status_code response)
                                    ("Failed to fetch chart: " ++ response_text response)))),
           s')
    | inr msg => (Raised (HTTPException 500 ("Chart fetch error: " ++ msg)), s')
    end.
Proof.
  unfold fetch_chart_image, try_except, http_get, chart_request. cbn [bind ret Monad_M].
  destruct (requests_get _ (world s)) as [[response|msg] w]; [|reflexivity].
  destruct (status_code response =? 200)%Z; reflexivity.
Qed.

(** X14. Whatever [fetch_chart_image] raises is an [HTTPException] of
    status 500: the status the chart provider answered with is never the
    status of the error, and a network error is no other error either.
    The function makes no gateway call. *)
Theorem fetch_chart_image_raises_500 symbol exchange s :
  (forall e,
     fst (fetch_chart_image World requests_get CHART_IMG_API_KEY symbol exchange s) = Raised e ->
     exists detail, e = HTTPException 500 detail)
  /\ gateway_calls (snd (fetch_chart_image World requests_get CHART_IMG_API_KEY symbol exchange s))
     = gateway_calls s.
Proof.
  rewrite fetch_chart_image_cases.
  destruct (requests_get _ (world s)) as [[response|msg] w].
  - destruct (status_code response =? 200)%Z; cbn [fst snd gateway_calls];
      (split; [|reflexivity]); intros e H; [discriminate H|].
    injection H as <-. eauto.
  - cbn [fst snd gateway_calls]. split; [|reflexivity].
    intros e H. injection H as <-. eauto.
Qed.

(** X15. [fetch_chart_image] returns a text exactly when the provider
    answers with status 200, and the text then decodes to the bytes of the
    answer, empty or not. *)
Theorem fetch_chart_image_returns_iff symbol exchange s encoded :
  (fst (fetch_chart_image World requests_get CHART_IMG_API_KEY symbol exchange s) = Returned encoded
   <-> exists response w,
         requests_get (chart_request CHART_IMG_API_KEY symbol exchange) (world s)
         = (inl response, w)
         /\ status_code response = 200%Z
         /\ encoded = decode_utf8 (b64encode (content response)))
  /\ (forall response w,
        requests_get (chart_request CHART_IMG_API_KEY symbol exchange) (world s)
        = (inl response, w) ->
        status_code response = 200%Z ->
        fst (fetch_chart_image World requests_get CHART_IMG_API_KEY symbol exchange s) = Returned encoded ->
        b64decode (encode_utf8 encoded) = Some (content response)).
Proof.
  rewrite fetch_chart_image_cases.
  destruct (requests_get _ (world s)) as [[response|msg] w].
  - destruct (Z.eqb_spec (status_code response) 200) as [Hok|Hbad]; cbn [fst]; split.
    + split.
      * intros H. injection H as <-. exists response, w. auto.
      * intros (r' & w' & Hr & _ & ->). injection Hr as <- _. reflexivity.
    + intros r' w' Hr _ H. injection Hr as <- _. injection H as <-.
      unfold encode_utf8, decode_utf8. rewrite list_byte_of_string_of_list_byte.
      apply b64decode_b64encode.
    + split; [discriminate|].
      intros (r' & w' & Hr & H200 & _). injection Hr as <- _. contradiction.
    + intros r' w' Hr H200. injection Hr as <- _. contradiction.
  - cbn [fst]. split.
    + split; [discriminate | intros (r' & w' & Hr & _); discriminate Hr].
    + intros r' w' Hr. discriminate Hr.
Qed.

Lemma try_api_keys_raises keys i rest prompt image s e :
  fst (try_api_keys World send_message keys i rest prompt image s) = Raised e ->
  exists detail, e = HTTPException 503 detail.
Proof.
  rewrite try_api_keys_loop. intros H.
  apply fallback_loop_raises in H as [(e0 & ->)|(s0 & H)]; [eauto | discriminate H].
Qed.

(** X16. [analyze_stock_legacy] never returns a response: it builds the
    response without the four section fields, which the response model
    requires, so every request ends in an [HTTPException], of status 500
    (chart not fetched, or response refused) or 503 (all keys failed). *)
Theorem analyze_stock_legacy_never_returns keys request s :
  exists status detail,
    fst (analyze_stock_legacy World send_message requests_get strftime_now
           isoformat_now CHART_IMG_API_KEY keys legacy_report_prompt
           validation_error request s)
    = Raised (HTTPException status detail)
    /\ (status = 500%Z \/ status = 503%Z).
Proof.
  unfold analyze_stock_legacy, reraising. cbn [bind ret Monad_M].
  destruct (fetch_chart_image_raises_500 (request_symbol request)
              (request_exchange request) s) as [Hfetch _].
  destruct (fetch' (request_symbol request) (request_exchange request) s)
    as [[chart|e] s1].
  - unfold analyze_stock_with_gemini_legacy, now. cbn [bind ret Monad_M].
    match goal with
    | |- context [try_api_keys ?W ?f ?k ?i ?r ?p ?img ?st] =>
        pose proof (try_api_keys_raises k i r p img st) as Hexec;
        destruct (try_api_keys W f k i r p img st) as [[analysis|e] s2]
    end.
    + destruct analysis; cbn; eauto.
    + destruct (Hexec e eq_refl) as (detail & ->). cbn. eauto.
  - destruct (Hfetch e eq_refl) as (detail & ->). cbn. eauto.
Qed.

(** X17. The two deprecated executors walk the chain as the section
    functions do: if the attempts with the keys before key k fail and the
    attempt with key k succeeds they return its answer and the rest of the
    chain is not called; with an empty chain they return [None] without a
    call.  [analyze_stock_with_gemini_legacy] reads the clock once, so all
    its attempts carry one prompt. *)
Theorem deprecated_executors_short_circuit symbol exchange chart :
  (forall pre api_key post s s1 s2 answer last_error,
     keys_fail (fun key => analyze_with_gemini_api World send_message key
                             (deprecated_prompt symbol exchange) (Some chart))
       pre s s1 last_error ->
     analyze_with_gemini_api World send_message api_key
       (deprecated_prompt symbol exchange) (Some chart) s1 = (Returned answer, s2) ->
     analyze_stock_with_gemini World send_message (pre ++ api_key :: post)
       deprecated_prompt symbol exchange chart s = (Returned (Some answer), s2))
  /\ (forall pre api_key post s s1 s2 answer last_error,
        keys_fail (fun key => analyze_with_gemini_api World send_message key
                                (legacy_report_prompt symbol exchange
                                   (strftime_now (world s))) (Some chart))
          pre s s1 last_error ->
        analyze_with_gemini_api World send_message api_key
          (legacy_report_prompt symbol exchange (strftime_now (world s)))
          (Some chart) s1 = (Returned answer, s2) ->
        analyze_stock_with_gemini_legacy World send_message strftime_now
          (pre ++ api_key :: post) legacy_report_prompt symbol exchange chart s
        = (Returned (Some answer), s2))
  /\ (forall s,
        analyze_stock_with_gemini World send_message []
          deprecated_prompt symbol exchange chart s = (Returned None, s)
        /\ analyze_stock_with_gemini_legacy World send_message strftime_now
             [] legacy_report_prompt symbol exchange chart s = (Returned None, s)).
Proof.
  split; [|split].
  - intros pre api_key post s s1 s2 answer last_error Hfail Hok.
    unfold analyze_stock_with_gemini. rewrite try_api_keys_loop.
    eapply fallback_loop_first_success;
      [apply analyze_with_gemini_api_one_call | exact Hfail | exact Hok].
  - intros pre api_key post s s1 s2 answer last_error Hfail Hok.
    unfold analyze_stock_with_gemini_legacy, now. cbn [bind ret Monad_M].
    rewrite try_api_keys_loop.
    eapply fallback_loop_first_success;
      [apply analyze_with_gemini_api_one_call | exact Hfail | exact Hok].
  - intros s. split; reflexivity.
Qed.

End LegacyPath.

(** The legacy path on test doubles: a chart that is not found, and a chart
    that is found and analysed at the first key. *)
Example chart_not_found_is_a_500 :
  fst (fetch_chart_image (list (string + string)) chart_not_found (Some "chart-key")
         "aapl" "nasdaq" (demo_state []))
  = Raised (HTTPException 500
              "Chart fetch error: 404: Failed to fetch chart: Not Found").
Proof. reflexivity. Qed.

Example legacy_request_fails_after_a_good_analysis :
  analyze_stock_legacy (list (string + string)) scripted_send chart_found
    (fun _ => "2025-01-01 00:00:00") (fun _ => "2025-01-01T00:00:00")
    (Some "chart-key") demo_keys
    (fun symbol exchange t => demo_prompt "legacy" symbol exchange ++ " " ++ t)
    (fun fields => "4 validation errors for StockAnalysisResponse")
    {| request_symbol := "aapl"; request_exchange := "nasdaq";
       request_image_data := None |}
    (demo_state [inl "report"])
  = (Raised (HTTPException 500 generic_message),
     {| world := [];
        gateway_calls :=
          [ {| call_api_key := "key-1";
               call_prompt := "legacy AAPL NASDAQ 2025-01-01 00:00:00";
               call_image := Some "iVBORw==" |} ] |}).
Proof. reflexivity. Qed.

(** X17 on the test double: the first key fails, the second answers, the
    third is not called. *)
Lemma deprecated_executors_short_circuit_witness :
  analyze_stock_with_gemini (list (string + string)) scripted_send demo_keys
    (demo_prompt "deprecated") "aapl" "nasdaq" "iVBORw=="
    (demo_state [inr "503 Service Unavailable"; inl "report"])
  = (Returned (Some "report"),
     {| world := [];
        gateway_calls :=
          [ {| call_api_key := "key-1"; call_prompt := "deprecated AAPL NASDAQ";
               call_image := Some "iVBORw==" |};
            {| call_api_key := "key-2"; call_prompt := "deprecated AAPL NASDAQ";
               call_image := Some "iVBORw==" |} ] |}).
Proof.
  refine (proj1 (deprecated_executors_short_circuit scripted_send
                   (fun _ => "2025-01-01 00:00:00")
                   (fun symbol exchange t => demo_prompt "legacy" symbol exchange ++ " " ++ t)
                   (demo_prompt "deprecated") "aapl" "nasdaq" "iVBORw==")
            ["key-1"] "key-2" ["key-3"]
            (demo_state [inr "503 Service Unavailable"; inl "report"])
            _ _ "report" _ _ _).
  - eapply (keys_fail_more [] "key-1"); [apply keys_fail_none | reflexivity].
  - reflexivity.
Defined.
